(** * S3-to-dynamodb: the queue-triggered CSV ingestion handler

    A shallow embedding of [src/S3-to-dynamodb.py].  Python [str] values are
    Rocq [string]s (their UTF-8 bytes; every separator the code looks for is
    ASCII), the dictionaries produced by [json.loads] and by
    [csv.DictReader] are [gmap]s keyed by strings, exceptions are an explicit
    outcome type, and the effects of the handler (log lines, object fetches,
    [put_item] submissions) are threaded through a small state-and-exception
    monad. *)

From Stdlib Require Import ZArith NArith Ascii String DecimalString DecimalNat.
From stdpp Require Import base option list gmap strings.

Local Open Scope string_scope.

(** ** Python strings *)

Module PyStr.

(** [s.split(c)] for a one-character separator [c]. *)
Fixpoint split (c : ascii) (s : string) : list string :=
  match s with
  | EmptyString => [EmptyString]
  | String a s' =>
      if Ascii.eqb a c then EmptyString :: split c s'
      else match split c s' with
           | h :: t => String a h :: t
           | [] => [String a EmptyString]
           end
  end.

(** [sep.join(parts)] for a one-character separator. *)
Fixpoint join (c : ascii) (parts : list string) : string :=
  match parts with
  | [] => EmptyString
  | [p] => p
  | p :: ps => p +:+ String c (join c ps)
  end.

(** [c in s] for a one-character [c]. *)
Fixpoint has_char (c : ascii) (s : string) : bool :=
  match s with
  | EmptyString => false
  | String a s' => Ascii.eqb a c || has_char c s'
  end.

(** [s[n:]]. *)
Fixpoint drop (n : nat) (s : string) : string :=
  match n, s with
  | O, _ => s
  | S _, EmptyString => EmptyString
  | S n', String _ s' => drop n' s'
  end.

(** [s.replace(old, new, 1)]: the leftmost occurrence of [old] is replaced,
    and a string without occurrence is returned as it is. *)
Fixpoint replace1 (old new s : string) : string :=
  if String.prefix old s then new +:+ drop (String.length old) s
  else match s with
       | EmptyString => EmptyString
       | String a s' => String a (replace1 old new s')
       end.

(** [old] occurs in [s] at offset [length pre]. *)
Definition occurs_at (old pre s : string) : Prop :=
  ∃ post, s = pre +:+ old +:+ post.

(** [old in s]. *)
Definition occurs (old s : string) : Prop :=
  ∃ pre, occurs_at old pre s.

(** The occurrence of [old] after [pre] is the leftmost one of [s]: no
    occurrence starts at a smaller offset. *)
Definition first_occurrence (old pre post s : string) : Prop :=
  s = pre +:+ old +:+ post ∧
  ∀ pre', occurs_at old pre' s → (String.length pre <= String.length pre')%nat.

(** [str(n)] and [f"{n}"] for a non-negative [int]. *)
Definition of_nat (n : nat) : string :=
  NilZero.string_of_uint (Nat.to_uint n).

End PyStr.

(** ** Exceptions *)

Inductive exn : Type :=
  | KeyError (k : string)
  | IndexError
  | TypeError
  | AttributeError
  | ValueError (msg : string)
  | JSONDecodeError
  | InvalidOperation
  | ClientError.

Inductive outcome (A : Type) : Type :=
  | Ok (a : A)
  | Raise (e : exn).
Arguments Ok {A} a.
Arguments Raise {A} e.

(** Straight-line code: the first exception ends it. *)
#[export] Instance outcome_ret : MRet outcome := λ A a, Ok a.

#[export] Instance outcome_bind : MBind outcome := λ A B k o,
  match o with
  | Ok a => k a
  | Raise e => Raise e
  end.

(** ** Key extraction *)

(** [parts[-1]] of a list known to be non-empty. *)
Definition last_part (parts : list string) : string :=
  List.last parts EmptyString.

(** [parts[0]]. *)
Definition first_part (parts : list string) : string :=
  List.hd EmptyString parts.

Definition extract_symbol_timestamp (key : string) : outcome (string * string) :=
  let parts := PyStr.split "/" key in
  if (length parts <? 2)%nat then
    Raise (ValueError ("Invalid S3 key format: " +:+ key))
  else
    let symbol := List.nth 1 parts EmptyString in
    let filename := first_part (PyStr.split "." (last_part parts)) in
    let timestamp := PyStr.replace1 symbol "" filename in
    Ok (symbol, timestamp).

(** [stem] is [filename] up to its first dot: the file name with its
    extension stripped. *)
Definition is_stem (stem filename : string) : Prop :=
  PyStr.has_char "." stem = false ∧
  (filename = stem ∨ ∃ ext, filename = stem +:+ String "." ext).

(** The segments of a key: separated by slashes and free of them. *)
Definition segments (key : string) (parts : list string) : Prop :=
  parts ≠ [] ∧
  Forall (λ p, PyStr.has_char "/" p = false) parts ∧
  key = PyStr.join "/" parts.

(** ** Values read from the queue and from the object store *)

#[local] Set Warnings "-register-all".

(** What [json.loads] builds, and what the Lambda runtime passes in: [None],
    [bool], numbers (kept as their literal; the handler never inspects one),
    [str], [list] and [dict] with string keys. *)
Inductive json : Type :=
  | JNull
  | JBool (b : bool)
  | JNumber (lit : string)
  | JStr (s : string)
  | JArr (l : list json)
  | JObj (m : gmap string json).

(** A value of a [csv.DictReader] row: a [str], or [None] for a field that a
    short line does not reach. *)
Definition cell : Type := option string.

(** A row of [csv.DictReader]: field name to value. *)
Definition row : Type := gmap string cell.

(** [str(value)] and [f"{value}"] on a cell. *)
Definition py_str (value : cell) : string :=
  match value with
  | Some s => s
  | None => "None"
  end.

(** [v[k]] for a string key [k]. *)
Definition getitem (v : json) (k : string) : outcome json :=
  match v with
  | JObj m =>
      match m !! k with
      | Some x => Ok x
      | None => Raise (KeyError k)
      end
  | _ => Raise TypeError
  end.

(** A byte that continues a UTF-8 sequence. *)
Definition is_continuation (a : ascii) : bool :=
  let n := nat_of_ascii a in (128 <=? n)%nat && (n <? 192)%nat.

(** [s] goes on with a continuation byte. *)
Definition continues (s : string) : bool :=
  match s with
  | String b _ => is_continuation b
  | EmptyString => false
  end.

(** The characters of [s]: each byte that starts a UTF-8 sequence, together
    with the continuation bytes that follow it. *)
Fixpoint code_points (s : string) : list string :=
  match s with
  | EmptyString => []
  | String a s' =>
      match code_points s' with
      | g :: gs =>
          if continues s' then String a g :: gs
          else String a EmptyString :: g :: gs
      | [] => [String a EmptyString]
      end
  end.

(** [v[0]].  A [dict] decoded from JSON has string keys only, so the integer
    key [0] is never found in it. *)
Definition getitem0 (v : json) : outcome json :=
  match v with
  | JArr (x :: _) => Ok x
  | JArr [] => Raise IndexError
  | JStr s =>
      match code_points s with
      | c :: _ => Ok (JStr c)
      | [] => Raise IndexError
      end
  | JObj _ => Raise (KeyError "0")
  | _ => Raise TypeError
  end.

(** [row[k]]. *)
Definition row_get (r : row) (k : string) : outcome cell :=
  match r !! k with
  | Some c => Ok c
  | None => Raise (KeyError k)
  end.

(** The one-character strings of [s], as iterating a [str] yields them. *)
Definition chars (s : string) : list json := JStr <$> code_points s.

(** [for record in v]: the elements of a [list], the characters of a [str],
    the keys of a [dict]; other values are not iterable.  The map does not
    keep the order in which a [dict] was filled; its keys are all [str], which
    the loop body treats alike. *)
Definition py_iter (v : json) : outcome (list json) :=
  match v with
  | JArr l => Ok l
  | JStr s => Ok (chars s)
  | JObj m => Ok (JStr <$> (map_to_list m).*1)
  | _ => Raise TypeError
  end.

(** ** Numeric coercion *)

(** A [decimal.Decimal]: sign, coefficient and exponent as [as_tuple] shows
    them, or one of the special values. *)
Inductive Decimal : Type :=
  | Finite (negative : bool) (coefficient : N) (exponent : Z)
  | Infinity (negative : bool)
  | NaN (negative signaling : bool) (payload : N).

Module Lex.

Definition is_digit (a : ascii) : bool :=
  let n := nat_of_ascii a in (48 <=? n)%nat && (n <=? 57)%nat.

(** ASCII characters for which [str.isspace] holds. *)
Definition is_space (a : ascii) : bool :=
  let n := nat_of_ascii a in
  ((9 <=? n)%nat && (n <=? 13)%nat) || ((28 <=? n)%nat && (n <=? 32)%nat).

Definition lower (a : ascii) : ascii :=
  let n := nat_of_ascii a in
  if (65 <=? n)%nat && (n <=? 90)%nat then ascii_of_nat (n + 32) else a.

Definition digit_val (a : ascii) : N := N_of_ascii a - 48.

Fixpoint lstrip (s : string) : string :=
  match s with
  | String a s' => if is_space a then lstrip s' else s
  | EmptyString => EmptyString
  end.

Fixpoint rstrip (s : string) : string :=
  match s with
  | String a s' =>
      match rstrip s' with
      | EmptyString => if is_space a then EmptyString else String a EmptyString
      | t => String a t
      end
  | EmptyString => EmptyString
  end.

(** [s.strip()]. *)
Definition strip (s : string) : string := rstrip (lstrip s).

(** [s.replace("_", "")]. *)
Fixpoint drop_underscores (s : string) : string :=
  match s with
  | String a s' =>
      if Ascii.eqb a "_" then drop_underscores s' else String a (drop_underscores s')
  | EmptyString => EmptyString
  end.

Fixpoint lowercase (s : string) : string :=
  match s with
  | String a s' => String (lower a) (lowercase s')
  | EmptyString => EmptyString
  end.

(** The longest prefix of digits, and what follows it. *)
Fixpoint span_digits (s : string) : string * string :=
  match s with
  | String a s' =>
      if is_digit a then let '(d, r) := span_digits s' in (String a d, r)
      else (EmptyString, s)
  | EmptyString => (EmptyString, EmptyString)
  end.

(** [int(d)] for a string of digits; the empty string counts as zero. *)
Fixpoint digits_value (acc : N) (d : string) : N :=
  match d with
  | String a d' => digits_value (10 * acc + digit_val a) d'
  | EmptyString => acc
  end.

(** An optional sign: whether it is a minus, and what follows it. *)
Definition sign (s : string) : bool * string :=
  match s with
  | String "-" r => (true, r)
  | String "+" r => (false, r)
  | _ => (false, s)
  end.

Definition signed (negative : bool) (n : N) : Z :=
  if negative then (- Z.of_N n)%Z else Z.of_N n.

End Lex.

(** The exponent part: nothing, or [E], an optional sign and at least one
    digit, up to the end of the string. *)
Definition decimal_exponent (s : string) : option Z :=
  match s with
  | EmptyString => Some 0%Z
  | String "e" r =>
      let '(neg, r1) := Lex.sign r in
      match Lex.span_digits r1 with
      | (String a d, EmptyString) => Some (Lex.signed neg (Lex.digits_value 0 (String a d)))
      | _ => None
      end
  | _ => None
  end.

(** A number: digits, an optional fraction, an optional exponent, with a
    digit before or just after the point. *)
Definition decimal_number (negative : bool) (s : string) : option Decimal :=
  let '(intpart, r1) := Lex.span_digits s in
  let '(fracpart, r2) :=
    match r1 with
    | String "." r => Lex.span_digits r
    | _ => (EmptyString, r1)
    end in
  match intpart +:+ fracpart with
  | EmptyString => None
  | String a d =>
      match decimal_exponent r2 with
      | Some e =>
          Some (Finite negative (Lex.digits_value 0 (String a d))
                       (e - Z.of_nat (String.length fracpart)))
      | None => None
      end
  end.

(** [NaN] or [sNaN] followed by diagnostic digits only. *)
Definition decimal_nan (negative : bool) (s : string) : option Decimal :=
  let '(signaling, r) :=
    match s with
    | String "s" r => (true, r)
    | _ => (false, s)
    end in
  match r with
  | String "n" (String "a" (String "n" diag)) =>
      match Lex.span_digits diag with
      | (d, EmptyString) => Some (NaN negative signaling (Lex.digits_value 0 d))
      | _ => None
      end
  | _ => None
  end.

(** [Decimal(s)] on ASCII text, by the grammar of the [decimal] module:
    surrounding white space and every underscore are dropped, then the text
    must be, up to letter case, a signed number, infinity or NaN; anything
    else raises [InvalidOperation].  The conversion is exact: no digit of the
    coefficient is rounded away. *)
Definition Decimal_of_ascii (s : string) : outcome Decimal :=
  let '(negative, body) :=
    Lex.sign (Lex.lowercase (Lex.drop_underscores (Lex.strip s))) in
  if String.eqb body "inf" || String.eqb body "infinity" then Ok (Infinity negative)
  else
    match decimal_number negative body with
    | Some d => Ok d
    | None =>
        match decimal_nan negative body with
        | Some d => Ok d
        | None => Raise InvalidOperation
        end
    end.

(** Text of ASCII characters only. *)
Fixpoint is_ascii (s : string) : bool :=
  match s with
  | EmptyString => true
  | String a s' => (nat_of_ascii a <? 128)%nat && is_ascii s'
  end.

(** Text with an exponent marker. *)
Fixpoint has_exponent (s : string) : bool :=
  match s with
  | EmptyString => false
  | String a s' => Ascii.eqb a "e" || Ascii.eqb a "E" || has_exponent s'
  end.

Section Interpreter.

(** [Decimal(s)] where the grammar alone does not settle it, [None] when it
    raises [InvalidOperation]: on text with characters beyond ASCII, where
    the digits and the white space of other scripts are read by the tables of
    the interpreter, and on numbers written with an exponent, which the
    constructor rejects when the exponent leaves the range in which it is
    exact. *)
Variable Decimal_beyond : string → option Decimal.

(** [int(s)] on a string, [None] when it raises [ValueError].  Which
    characters count as digits and as white space, and how long a literal may
    be, are the interpreter's to say. *)
Variable int_of_str : string → option Z.

Definition beyond (s : string) : outcome Decimal :=
  match Decimal_beyond s with
  | Some d => Ok d
  | None => Raise InvalidOperation
  end.

(** [Decimal(s)]: ASCII text that the grammar rejects is rejected, and ASCII
    text that it reads without exponent is the number read. *)
Definition Decimal_of_str (s : string) : outcome Decimal :=
  if is_ascii s then
    match Decimal_of_ascii s with
    | Ok d => if has_exponent s then beyond s else Ok d
    | Raise e => Raise e
    end
  else beyond s.

Definition safe_decimal (value : cell) : outcome Decimal :=
  match Decimal_of_str (py_str value) with
  | Ok d => Ok d
  | Raise _ => Decimal_of_str "0"
  end.

(** [int(value)] on a cell: [None] is a [TypeError]. *)
Definition py_int (value : cell) : outcome Z :=
  match value with
  | None => Raise TypeError
  | Some s =>
      match int_of_str s with
      | Some n => Ok n
      | None => Raise (ValueError "invalid literal for int() with base 10")
      end
  end.

End Interpreter.

Definition Decimal_zero : Decimal := Finite false 0 0.

(** ** Effects *)

(** The [Item] passed to [batch.put_item]. *)
Record Item : Type := mkItem {
  symbol_timestamp : string;
  row_key : string;
  item_symbol : string;
  item_timestamp : string;
  item_date : cell;
  item_open : Decimal;
  item_close : Decimal;
  item_high : Decimal;
  item_low : Decimal;
  item_volume : Z
}.

(** One line written by [print].  The text an exception formats to is kept
    as the exception itself. *)
Inductive log_line : Type :=
  | ErrorParsingRecord (e : exn)
  | ErrorExtractingKey (key : json) (e : exn)
  | ErrorReadingCsv (key : json) (e : exn)
  | ProcessedFile (key : json) (n : nat)
  | ErrorInsertingRows (key : json) (e : exn).

(** What one invocation has done so far: the lines printed, the objects
    requested from the store (bucket, key), and the items handed to
    [put_item], each in order. *)
Record trace : Type := mkTrace {
  printed : list log_line;
  fetched : list (string * string);
  submitted : list Item
}.

Definition empty_trace : trace := mkTrace [] [] [].

(** A computation that may raise and that extends the trace; the trace
    survives an exception. *)
Definition M (A : Type) : Type := trace → outcome A * trace.

Definition raise {A} (e : exn) : M A := λ t, (Raise e, t).

#[export] Instance M_ret : MRet M := λ A a t, (Ok a, t).

#[export] Instance M_bind : MBind M := λ A B k m t,
  match m t with
  | (Ok a, t') => k a t'
  | (Raise e, t') => (Raise e, t')
  end.

(** A pure step that may raise. *)
Definition lift {A} (o : outcome A) : M A := λ t, (o, t).

(** [try: body / except Exception as e: handler] followed by [rest], which
    runs outside the [try] and only when [body] did not raise (the handlers
    of this program end in [continue] or at the end of the loop body). *)
Definition try_except {A B} (body : M A) (handler : exn → M B) (rest : A → M B) : M B :=
  λ t, match body t with
       | (Ok a, t') => rest a t'
       | (Raise e, t') => handler e t'
       end.

(** [print(line)].  A Python string is modelled by its UTF-8 encoding, so
    every string of this development is text that [print] can write; a string
    with a lone surrogate, on which [print] raises, has no counterpart
    here. *)
Definition print (l : log_line) : M unit :=
  λ t, (Ok tt, mkTrace (printed t ++ [l]) (fetched t) (submitted t)).

Record response : Type := mkResponse {
  statusCode : Z;
  message : string
}.

(** ** The handler *)

Section Handler.

(** [Decimal] where its grammar does not settle it, and [int]. *)
Variable Decimal_beyond : string → option Decimal.
Variable int_of_str : string → option Z.

Local Abbreviation safe_decimal := (safe_decimal Decimal_beyond).
Local Abbreviation py_int := (py_int int_of_str).

(** [json.loads] on a string: [None] when it raises [JSONDecodeError]. *)
Variable json_loads : string → option json.

(** The rows [csv.DictReader] yields for the object [key] of [bucket];
    [None] when the object cannot be fetched or decoded. *)
Variable s3_rows : string → string → option (list row).

(** Whether [batch.put_item] raises on an item, given the items handed over
    before it (the writer flushes its buffer to the table in between). *)
Variable put_raises : list Item → Item → bool.

(** Whether the flush at the end of the [with] block raises, given all items
    handed over; it is asked only when the block has handed an item over. *)
Variable flush_raises : list Item → bool.

(** [get_object] takes a bucket name and a key that are strings; the client
    rejects anything else before a request is made. *)
Definition process_csv (bucket key : json) : M (list row) :=
  match bucket, key with
  | JStr b, JStr k =>
      λ t, let t' := mkTrace (printed t) (fetched t ++ [(b, k)]) (submitted t) in
           match s3_rows b k with
           | Some rows => (Ok rows, t')
           | None => (Raise ClientError, t')
           end
  | _, _ => raise ClientError
  end.

(** [json.loads(body)]: only a [str] can be decoded. *)
Definition loads (body : json) : outcome json :=
  match body with
  | JStr s =>
      match json_loads s with
      | Some v => Ok v
      | None => Raise JSONDecodeError
      end
  | _ => Raise TypeError
  end.

(** [key.split] exists on a [str] only. *)
Definition extract_from (key : json) : outcome (string * string) :=
  match key with
  | JStr k => extract_symbol_timestamp k
  | _ => Raise AttributeError
  end.

Definition put_item (item : Item) : M unit :=
  λ t, let t' := mkTrace (printed t) (fetched t) (submitted t ++ [item]) in
       if put_raises (submitted t) item then (Raise ClientError, t') else (Ok tt, t').

(** [with table.batch_writer() as batch: body]: leaving the block flushes
    what is buffered, whether [body] raised or not.  A block that handed no
    item over has nothing buffered, and nothing is flushed. *)
Definition with_batch_writer {A} (body : M A) : M A :=
  λ t, match body t with
       | (r, t') =>
           if (length (submitted t) <? length (submitted t'))%nat
              && flush_raises (submitted t')
           then (Raise ClientError, t') else (r, t')
       end.

(** The [Item] of one row, its fields evaluated in the order of the source. *)
Definition build_item (symbol timestamp : string) (idx : nat) (r : row) : outcome Item :=
  let partition_key := symbol +:+ "_" +:+ timestamp in
  date0 ← row_get r "date";
  let sort_key := py_str date0 +:+ "_" +:+ PyStr.of_nat idx in
  date ← row_get r "date";
  open ← row_get r "open";
  open ← safe_decimal open;
  close ← row_get r "close";
  close ← safe_decimal close;
  high ← row_get r "high";
  high ← safe_decimal high;
  low ← row_get r "low";
  low ← safe_decimal low;
  volume ← row_get r "volume";
  volume ← py_int volume;
  mret (mkItem partition_key sort_key symbol timestamp date open close high low volume).

(** [for idx, row in enumerate(rows)], from index [idx] on. *)
Fixpoint put_rows (symbol timestamp : string) (idx : nat) (rows : list row) : M unit :=
  match rows with
  | [] => mret tt
  | r :: rows' =>
      item ← lift (build_item symbol timestamp idx r);
      (put_item item ;;
       put_rows symbol timestamp (S idx) rows')
  end.

(** The first [try] of the loop body. *)
Definition s3_record_of (record : json) : outcome json :=
  body ← getitem record "body";
  s3_event ← loads body;
  records ← getitem s3_event "Records";
  first ← getitem0 records;
  getitem first "s3".

(** The two assignments between the first and the second [try]. *)
Definition bucket_and_key (s3_record : json) : outcome (json * json) :=
  bucket_obj ← getitem s3_record "bucket";
  bucket ← getitem bucket_obj "name";
  object ← getitem s3_record "object";
  key ← getitem object "key";
  mret (bucket, key).

(** The last [try] of the loop body, with its counters. *)
Definition insert_file (key : json) (symbol timestamp : string) (rows : list row)
    (totals : nat * nat) : M (nat * nat) :=
  try_except
    (with_batch_writer (put_rows symbol timestamp 0 rows) ;;
     (print (ProcessedFile key (length rows)) ;;
      mret (S (fst totals), (snd totals + length rows)%nat)))
    (λ e, print (ErrorInsertingRows key e) ;; mret totals)
    mret.

(** The body of [for record in event['Records']]: from the running
    [(total_files, total_rows)] to their values after [record]. *)
Definition handle_record (totals : nat * nat) (record : json) : M (nat * nat) :=
  try_except (lift (s3_record_of record))
    (λ e, print (ErrorParsingRecord e) ;; mret totals)
    (λ s3_record,
       '(bucket, key) ← lift (bucket_and_key s3_record);
       try_except (lift (extract_from key))
         (λ e, print (ErrorExtractingKey key e) ;; mret totals)
         (λ '(symbol, timestamp),
            try_except (process_csv bucket key)
              (λ e, print (ErrorReadingCsv key e) ;; mret totals)
              (λ rows, insert_file key symbol timestamp rows totals))).

Fixpoint handle_records (totals : nat * nat) (records : list json) : M (nat * nat) :=
  match records with
  | [] => mret totals
  | record :: records' =>
      totals' ← handle_record totals record;
      handle_records totals' records'
  end.

Definition summary (totals : nat * nat) : string :=
  "Processed " +:+ PyStr.of_nat (fst totals) +:+ " files with "
  +:+ PyStr.of_nat (snd totals) +:+ " rows into DynamoDB".

Definition lambda_handler (event : gmap string json) (context : json) : M response :=
  match event !! "Records" with
  | None => mret (mkResponse 400 "No SQS Records")
  | Some records =>
      records ← lift (py_iter records);
      totals ← handle_records (0, 0)%nat records;
      mret (mkResponse 200 (summary totals))
  end.

End Handler.

(** ** Vocabulary of the properties *)

(** The items of the rows of a file, from row index [idx] on, up to the
    first row that has none. *)
Fixpoint built (Decimal_beyond : string → option Decimal)
    (int_of_str : string → option Z)
    (symbol timestamp : string) (idx : nat) (rows : list row) : list Item :=
  match rows with
  | [] => []
  | r :: rows' =>
      match build_item Decimal_beyond int_of_str symbol timestamp idx r with
      | Ok item => item :: built Decimal_beyond int_of_str symbol timestamp (S idx) rows'
      | Raise _ => []
      end
  end.

(** The sub-message [record] describes a write of [key] in [bucket]. *)
Definition names_object (json_loads : string → option json)
    (record : json) (bucket key : string) : Prop :=
  ∃ s3_record,
    s3_record_of json_loads record = Ok s3_record ∧
    bucket_and_key s3_record = Ok (JStr bucket, JStr key).

(** The items a sub-message can hand to the table: those of the rows of the
    object it names.  They depend on the sub-message and on what the queue
    and the store hold, not on the run. *)
Definition record_items (Decimal_beyond : string → option Decimal)
    (int_of_str : string → option Z) (json_loads : string → option json)
    (s3_rows : string → string → option (list row)) (record : json) : list Item :=
  match s3_record_of json_loads record with
  | Ok s3_record =>
      match bucket_and_key s3_record with
      | Ok (JStr bucket, JStr key) =>
          match extract_symbol_timestamp key, s3_rows bucket key with
          | Ok (symbol, timestamp), Some rows =>
              built Decimal_beyond int_of_str symbol timestamp 0 rows
          | _, _ => []
          end
      | _ => []
      end
  | Raise _ => []
  end.

(** A sub-message is located when the first [try] rejects it or its
    [s3] record has a bucket name and an object key. *)
Definition located (json_loads : string → option json) (record : json) : Prop :=
  ∀ s3_record, s3_record_of json_loads record = Ok s3_record →
               ∃ bucket key, bucket_and_key s3_record = Ok (bucket, key).

(** The columns every row must have. *)
Definition required_columns : list string :=
  ["date"; "open"; "close"; "high"; "low"; "volume"].

(** The decimal a price cell is stored as: its exact value when it reads as
    a decimal, zero otherwise. *)
Definition decimal_or_zero (Decimal_beyond : string → option Decimal)
    (c : cell) : Decimal :=
  match Decimal_of_str Decimal_beyond (py_str c) with
  | Ok d => d
  | Raise _ => Decimal_zero
  end.

(** A table that never raises, neither on a write nor on the closing
    flush. *)
Definition accepting (put_raises : list Item → Item → bool)
    (flush_raises : list Item → bool) : Prop :=
  (∀ before item, put_raises before item = false) ∧
  (∀ items, flush_raises items = false).

(** The files and the rows that the lines of a log report as processed. *)
Fixpoint files_logged (lines : list log_line) : nat :=
  match lines with
  | [] => 0
  | ProcessedFile _ _ :: lines' => S (files_logged lines')
  | _ :: lines' => files_logged lines'
  end.

Fixpoint rows_logged (lines : list log_line) : nat :=
  match lines with
  | [] => 0
  | ProcessedFile _ n :: lines' => n + rows_logged lines'
  | _ :: lines' => rows_logged lines'
  end.

(** ** A queue, a bucket and a table to run the handler on *)

Module Scenario.

Definition dq : string := String "034"%char EmptyString.

Definition quoted (s : string) : string := dq +:+ s +:+ dq.

(** The JSON text of one nested record naming [key] in [bucket]. *)
Definition s3_text (bucket key : string) : string :=
  "{" +:+ quoted "s3" +:+ ":{" +:+ quoted "bucket" +:+ ":{" +:+ quoted "name" +:+ ":"
  +:+ quoted bucket +:+ "}," +:+ quoted "object" +:+ ":{" +:+ quoted "key" +:+ ":"
  +:+ quoted key +:+ "}}}".

(** The JSON text of a message body with the given nested records. *)
Definition records_text (elements : list string) : string :=
  "{" +:+ quoted "Records" +:+ ":[" +:+ PyStr.join "," elements +:+ "]}".

(** What [s3_text bucket key] decodes to. *)
Definition s3_value (bucket key : string) : json :=
  JObj {[ "s3" :=
    JObj (<[ "bucket" := JObj {[ "name" := JStr bucket ]} ]>
            {[ "object" := JObj {[ "key" := JStr key ]} ]}) ]}.

Definition lyft_key : string := "stocks/LYFT/LYFT2025-11-17_15-26-55.csv".
Definition uber_key : string := "stocks/UBER/UBER2025-11-17_15-26-55.csv".

Definition body_lyft : string := records_text [s3_text "market" lyft_key].
Definition body_uber : string := records_text [s3_text "market" uber_key].
Definition body_lyft_uber : string :=
  records_text [s3_text "market" lyft_key; s3_text "market" uber_key].
Definition body_no_bucket : string :=
  records_text ["{" +:+ quoted "s3" +:+ ":{}}"].

(** [json.loads] on the messages of this queue; any other text used below
    is not JSON. *)
Definition json_loads (s : string) : option json :=
  if String.eqb s body_lyft then
    Some (JObj {[ "Records" := JArr [s3_value "market" lyft_key] ]})
  else if String.eqb s body_uber then
    Some (JObj {[ "Records" := JArr [s3_value "market" uber_key] ]})
  else if String.eqb s body_lyft_uber then
    Some (JObj {[ "Records" :=
            JArr [s3_value "market" lyft_key; s3_value "market" uber_key] ]})
  else if String.eqb s body_no_bucket then
    Some (JObj {[ "Records" := JArr [JObj {[ "s3" := JObj ∅ ]}] ]})
  else None.

(** One line of a price file under the header
    [date,open,close,high,low,volume]. *)
Definition bar (date open close high low volume : string) : row :=
  list_to_map [("date", Some date); ("open", Some open); ("close", Some close);
               ("high", Some high); ("low", Some low); ("volume", Some volume)].

Definition lyft_rows : list row :=
  [bar "2025-11-14" "12.5" "12.9" "13.0" "12.4" "1000";
   bar "2025-11-15" "12.9" "13.4" "13.5" "12.8" "1200";
   bar "2025-11-16" "13.4" "n/a" "13.6" "13.1" "900"].

Definition bad_bar : row :=
  bar "2025-11-15" "71.2" "70.8" "71.9" "70.1" "not-a-number".

Definition uber_rows : list row :=
  [bar "2025-11-14" "70.0" "71.2" "71.5" "69.8" "5000";
   bad_bar;
   bar "2025-11-16" "70.8" "72.0" "72.3" "70.5" "4100"].

Definition s3_rows (bucket key : string) : option (list row) :=
  if String.eqb bucket "market" then
    if String.eqb key lyft_key then Some lyft_rows
    else if String.eqb key uber_key then Some uber_rows
    else None
  else None.

(** No price of this bucket has an exponent or a character beyond ASCII. *)
Definition decimal_beyond (s : string) : option Decimal := None.

(** [int] on the volumes of this bucket; no other text used below is an
    integer. *)
Definition volumes : list (string * Z) :=
  [("1000", 1000%Z); ("1200", 1200%Z); ("900", 900%Z); ("5000", 5000%Z);
   ("4100", 4100%Z); ("700", 700%Z); ("650", 650%Z); ("1", 1%Z)].

Definition int_of (s : string) : option Z :=
  snd <$> List.find (λ p, String.eqb s p.1) volumes.

(** A table that takes every write. *)
Definition put_ok (before : list Item) (item : Item) : bool := false.
Definition flush_ok (items : list Item) : bool := false.

(** A queue record carrying [body], and the envelope of a batch. *)
Definition sqs_record (body : string) : json := JObj {[ "body" := JStr body ]}.

Definition event (bodies : list string) : gmap string json :=
  {[ "Records" := JArr (sqs_record <$> bodies) ]}.

Definition run (bodies : list string) : outcome response * trace :=
  lambda_handler decimal_beyond int_of json_loads s3_rows put_ok flush_ok
    (event bodies) JNull empty_trace.

Definition run_record (totals : nat * nat) (body : string) (t : trace)
    : outcome (nat * nat) * trace :=
  handle_record decimal_beyond int_of json_loads s3_rows put_ok flush_ok
    totals (sqs_record body) t.

End Scenario.

(** A string of ASCII digits. *)
Fixpoint all_digits (s : string) : bool :=
  match s with
  | EmptyString => true
  | String a s' => Lex.is_digit a && all_digits s'
  end.

(** The optional minus of a negative number. *)
Definition minus (negative : bool) : string :=
  if negative then "-" else EmptyString.

(** A character of a plain decimal: a digit or the point. *)
Definition plain (a : ascii) : bool := Lex.is_digit a || Ascii.eqb a ".".

(** A string of digits and points. *)
Fixpoint all_plain (s : string) : bool :=
  match s with
  | EmptyString => true
  | String a s' => plain a && all_plain s'
  end.

(** An item whose partition key is made of its own symbol and timestamp,
    whose symbol holds no slash and whose timestamp holds neither a slash nor
    a dot, and whose sort key is its date followed by a row position. *)
Definition well_keyed (item : Item) : Prop :=
  symbol_timestamp item = item_symbol item +:+ "_" +:+ item_timestamp item ∧
  PyStr.has_char "/" (item_symbol item) = false ∧
  PyStr.has_char "/" (item_timestamp item) = false ∧
  PyStr.has_char "." (item_timestamp item) = false ∧
  ∃ i, row_key item = py_str (item_date item) +:+ "_" +:+ PyStr.of_nat i.

(** ** More objects in the bucket *)

Module Bucket.

Definition snap_key : string := "stocks/SNAP/SNAP2025-11-17_15-26-55.csv".
Definition gone_key : string := "stocks/GONE/GONE2025-11-17_15-26-55.csv".
Definition none_key : string := "stocks/NONE/NONE2025-11-17_15-26-55.csv".
Definition flat_key : string := "LYFT2025-11-17_15-26-55.csv".

Definition keys : list string :=
  [Scenario.lyft_key; Scenario.uber_key; snap_key; gone_key; none_key; flat_key].

(** The body of the message that announces [key]. *)
Definition body_of (key : string) : string :=
  Scenario.records_text [Scenario.s3_text "market" key].

(** [json.loads] on the announcements of [keys]. *)
Definition json_loads (s : string) : option json :=
  match List.find (λ key, String.eqb s (body_of key)) keys with
  | Some key => Some (JObj {[ "Records" := JArr [Scenario.s3_value "market" key] ]})
  | None => None
  end.

(** One line of a price file whose header has no [low] column. *)
Definition bar_without_low (date open close high volume : string) : row :=
  list_to_map [("date", Some date); ("open", Some open); ("close", Some close);
               ("high", Some high); ("volume", Some volume)].

Definition snap_rows : list row :=
  [bar_without_low "2025-11-14" "9.1" "9.3" "9.4" "700";
   bar_without_low "2025-11-15" "9.3" "9.0" "9.5" "650"].

(** [gone_key] cannot be read, [none_key] is a header without lines, and
    [flat_key] would be readable if it were ever asked for. *)
Definition s3_rows (bucket key : string) : option (list row) :=
  if String.eqb bucket "market" then
    if String.eqb key snap_key then Some snap_rows
    else if String.eqb key none_key then Some []
    else if String.eqb key flat_key then Some Scenario.lyft_rows
    else if String.eqb key gone_key then None
    else Scenario.s3_rows bucket key
  else None.

(** A table whose closing flush fails. *)
Definition flush_fails (items : list Item) : bool := true.

Definition record_of (key : string) : json := Scenario.sqs_record (body_of key).

Definition run_record (totals : nat * nat) (key : string) (t : trace)
    : outcome (nat * nat) * trace :=
  handle_record Scenario.decimal_beyond Scenario.int_of json_loads s3_rows
    Scenario.put_ok Scenario.flush_ok totals (record_of key) t.

Definition run (keys : list string) : outcome response * trace :=
  lambda_handler Scenario.decimal_beyond Scenario.int_of json_loads s3_rows
    Scenario.put_ok Scenario.flush_ok
    (Scenario.event (body_of <$> keys)) JNull empty_trace.

End Bucket.

(** * Properties *)

Local Open Scope list_scope.

(** ** Splitting and joining *)

Section SplitJoin.

Variable c : ascii.

Lemma split_nonempty s : PyStr.split c s ≠ [].
Proof.
  destruct s as [|a s]; simpl; [done|].
  destruct (Ascii.eqb a c); [done|]. by destruct (PyStr.split c s).
Qed.

Lemma join_cons p q ps :
  PyStr.join c (p :: q :: ps) = p +:+ String c (PyStr.join c (q :: ps)).
Proof. reflexivity. Qed.

Lemma split_join s : PyStr.join c (PyStr.split c s) = s.
Proof.
  induction s as [|a s IH]; simpl; [done|].
  destruct (Ascii.eqb_spec a c) as [->|Hne].
  - pose proof (split_nonempty s) as Hs.
    destruct (PyStr.split c s) as [|q ps]; [done|].
    by rewrite join_cons, IH.
  - pose proof (split_nonempty s) as Hs.
    destruct (PyStr.split c s) as [|q ps]; [done|].
    destruct ps as [|q' ps]; simpl in *; by rewrite <- IH.
Qed.

Lemma split_has_no_sep s :
  Forall (λ p, PyStr.has_char c p = false) (PyStr.split c s).
Proof.
  induction s as [|a s IH]; simpl; [by constructor|].
  destruct (Ascii.eqb_spec a c) as [->|Hne].
  - by constructor.
  - destruct (PyStr.split c s) as [|q ps]; simpl.
    + constructor; [|done]. simpl. by rewrite (proj2 (Ascii.eqb_neq _ _) Hne).
    + inversion IH; subst. constructor; [|done].
      simpl. by rewrite (proj2 (Ascii.eqb_neq _ _) Hne).
Qed.

Lemma split_without_sep p :
  PyStr.has_char c p = false → PyStr.split c p = [p].
Proof.
  induction p as [|a p IH]; simpl; [done|].
  intros [Ha Hp]%orb_false_elim. rewrite Ha, (IH Hp). done.
Qed.

Lemma split_app_sep p r :
  PyStr.has_char c p = false →
  PyStr.split c (p +:+ String c r) = p :: PyStr.split c r.
Proof.
  induction p as [|a p IH]; simpl.
  - intros _. by rewrite Ascii.eqb_refl.
  - intros [Ha Hp]%orb_false_elim. by rewrite Ha, (IH Hp).
Qed.

(** [split] inverts [join] on segments that do not contain the separator. *)
Lemma split_of_join parts :
  parts ≠ [] →
  Forall (λ p, PyStr.has_char c p = false) parts →
  PyStr.split c (PyStr.join c parts) = parts.
Proof.
  induction parts as [|p ps IH]; [done|].
  intros _ Hall. inversion Hall as [|? ? Hp Hps]; subst.
  destruct ps as [|q ps].
  - simpl. by apply split_without_sep.
  - rewrite join_cons, split_app_sep by done.
    f_equal. by apply IH.
Qed.

(** A string without separator is a single segment, and only such a string
    is. *)
Lemma split_length_one s :
  length (PyStr.split c s) = 1%nat ↔ PyStr.has_char c s = false.
Proof.
  split.
  - intros Hlen. pose proof (split_has_no_sep s) as Hall.
    pose proof (split_join s) as Hj.
    destruct (PyStr.split c s) as [|p [|q ps]]; simplify_eq/=.
    by inversion Hall.
  - intros H. by rewrite split_without_sep.
Qed.

End SplitJoin.

(** ** Replacing the leftmost occurrence *)

Lemma app_cons a s t : String a s +:+ t = String a (s +:+ t).
Proof. reflexivity. Qed.

Lemma app_empty t : EmptyString +:+ t = t.
Proof. reflexivity. Qed.

Lemma prefix_is_app old s :
  String.prefix old s = true ↔ ∃ post, s = old +:+ post.
Proof.
  revert s. induction old as [|a old IH]; intros s; simpl.
  - destruct s; split; eauto.
  - destruct s as [|b s]; simpl.
    + split; [done|]. by intros [post ?].
    + destruct (ascii_dec a b) as [->|Hne].
      * rewrite IH. split; intros [post Hs]; exists post;
          rewrite ?app_cons in *; congruence.
      * split; [done|]. intros [post Hs]. rewrite app_cons in Hs. congruence.
Qed.

Lemma drop_app old post :
  PyStr.drop (String.length old) (old +:+ post) = post.
Proof. induction old; simpl; [by destruct post|done]. Qed.

Lemma occurs_at_tail old a pre s :
  PyStr.occurs_at old pre s → PyStr.occurs_at old (String a pre) (String a s).
Proof. intros [post ->]. by exists post. Qed.

Lemma replace1_unfold old new s :
  PyStr.replace1 old new s =
  if String.prefix old s then new +:+ PyStr.drop (String.length old) s
  else match s with
       | EmptyString => EmptyString
       | String a s' => String a (PyStr.replace1 old new s')
       end.
Proof. by destruct s. Qed.

Lemma prefix_app old post : String.prefix old (old +:+ post) = true.
Proof. apply prefix_is_app. by exists post. Qed.

(** Where [old] occurs, [replace1] rewrites its leftmost occurrence. *)
Lemma replace1_first old new pre post s :
  PyStr.first_occurrence old pre post s →
  PyStr.replace1 old new s = pre +:+ new +:+ post.
Proof.
  revert s. induction pre as [|a pre IH]; intros s [-> Hmin].
  - rewrite !app_empty, replace1_unfold, prefix_app, drop_app. done.
  - rewrite !app_cons, replace1_unfold.
    destruct (String.prefix old (String a (pre +:+ old +:+ post))) eqn:Hp.
    + apply prefix_is_app in Hp as [post' Hp].
      specialize (Hmin EmptyString (ex_intro _ post' Hp)). simpl in Hmin. lia.
    + f_equal. apply IH. split; [done|].
      intros pre' Hocc. apply (occurs_at_tail _ a) in Hocc.
      apply Hmin in Hocc. simpl in Hocc. lia.
Qed.

(** Without occurrence of [old], [replace1] returns the string itself. *)
Lemma replace1_absent old new s :
  ¬ PyStr.occurs old s → PyStr.replace1 old new s = s.
Proof.
  induction s as [|a s IH]; intros Hno; rewrite replace1_unfold.
  - destruct (String.prefix old EmptyString) eqn:Hp; [|done].
    apply prefix_is_app in Hp as [post Hp].
    destruct Hno. exists EmptyString, post. done.
  - destruct (String.prefix old (String a s)) eqn:Hp.
    + apply prefix_is_app in Hp as [post Hp].
      destruct Hno. exists EmptyString, post. done.
    + f_equal. apply IH. intros [pre Hocc].
      apply Hno. exists (String a pre). by apply occurs_at_tail.
Qed.

(** An occurrence implies a leftmost one. *)
Lemma occurs_first old s :
  PyStr.occurs old s → ∃ pre post, PyStr.first_occurrence old pre post s.
Proof.
  induction s as [|a s IH]; intros [pre [post Hs]].
  - exists EmptyString, post. destruct pre; [|done]. split; [done|].
    intros; simpl; lia.
  - destruct (String.prefix old (String a s)) eqn:Hp.
    + apply prefix_is_app in Hp as [post' Hp].
      exists EmptyString, post'. split; [done|]. intros; simpl; lia.
    + destruct pre as [|b pre].
      { rewrite app_empty in Hs. rewrite Hs, prefix_app in Hp. done. }
      rewrite app_cons in Hs. injection Hs as -> Hs.
      destruct IH as (pre1 & post1 & Hs1 & Hmin1); [by exists pre, post|].
      exists (String b pre1), post1. split; [by rewrite app_cons, <- Hs1|].
      intros pre' [post' Hocc]. destruct pre' as [|b' pre'].
      { rewrite app_empty in Hocc. rewrite Hocc, prefix_app in Hp. done. }
      rewrite app_cons in Hocc. injection Hocc as -> Hocc. simpl.
      apply le_n_S, Hmin1. by exists post'.
Qed.

(** ** Key extraction *)

Example extract_lyft :
  extract_symbol_timestamp "stocks/LYFT/LYFT2025-11-17_15-26-55.csv"
  = Ok ("LYFT", "2025-11-17_15-26-55").
Proof. reflexivity. Qed.

Lemma segments_split key : segments key (PyStr.split "/" key).
Proof.
  split; [apply split_nonempty|].
  split; [apply split_has_no_sep|]. by rewrite split_join.
Qed.

Lemma split_segments key parts : segments key parts → PyStr.split "/" key = parts.
Proof. intros (Hne & Hall & ->). by apply split_of_join. Qed.

Lemma first_part_stem stem filename :
  is_stem stem filename → first_part (PyStr.split "." filename) = stem.
Proof.
  intros [Hdot [->|[ext ->]]].
  - by rewrite split_without_sep.
  - by rewrite split_app_sep.
Qed.

Lemma stem_exists filename : is_stem (first_part (PyStr.split "." filename)) filename.
Proof.
  pose proof (split_has_no_sep "." filename) as Hall.
  pose proof (split_join "." filename) as Hj.
  pose proof (split_nonempty "." filename) as Hne.
  destruct (PyStr.split "." filename) as [|p ps]; [done|].
  inversion Hall; subst. split; [done|].
  destruct ps as [|q ps]; [by left|]. right.
  rewrite join_cons. eauto.
Qed.

Lemma last_part_last parts filename :
  last parts = Some filename → last_part parts = filename.
Proof.
  unfold last_part. induction parts as [|p [|q ps] IH]; intros H; simplify_eq/=; [done|].
  by apply IH.
Qed.

Lemma nth_lookup_1 (parts : list string) symbol :
  parts !! 1%nat = Some symbol → List.nth 1 parts EmptyString = symbol.
Proof. destruct parts as [|p [|q ps]]; intros H; by simplify_eq/=. Qed.

(** The result of extraction on a key of at least two segments. *)
Lemma extract_two_segments key parts symbol filename stem :
  segments key parts →
  parts !! 1%nat = Some symbol →
  last parts = Some filename →
  is_stem stem filename →
  extract_symbol_timestamp key = Ok (symbol, PyStr.replace1 symbol "" stem).
Proof.
  intros Hseg Hsym Hlast Hstem. unfold extract_symbol_timestamp.
  rewrite (split_segments _ _ Hseg).
  rewrite (nth_lookup_1 _ _ Hsym), (last_part_last _ _ Hlast), (first_part_stem _ _ Hstem).
  destruct parts as [|p [|q ps]]; by simplify_eq/=.
Qed.

(** The result of extraction on a key of fewer than two segments. *)
Lemma extract_one_segment key parts :
  segments key parts →
  (length parts < 2)%nat →
  extract_symbol_timestamp key = Raise (ValueError ("Invalid S3 key format: " +:+ key)).
Proof.
  intros Hseg Hlen. unfold extract_symbol_timestamp.
  rewrite (split_segments _ _ Hseg).
  destruct (Nat.ltb_spec (length parts) 2); [done|lia].
Qed.

(** C2: extraction splits the key on slashes; with fewer than two segments
    it raises the key-format error ([ValueError]); otherwise the symbol is
    the second segment and the timestamp is the stem of the last segment
    (the text before its first dot) with the leftmost occurrence of the symbol
    removed, or the stem itself when the symbol does not occur.  The key
    [stocks/LYFT/LYFT2025-11-17_15-26-55.csv] gives [LYFT] and
    [2025-11-17_15-26-55], and a key without slash fails. *)
Theorem extract_symbol_timestamp_contract (key : string) (parts : list string) :
  segments key parts →
  ((length parts < 2)%nat →
     extract_symbol_timestamp key
     = Raise (ValueError ("Invalid S3 key format: " +:+ key)))
  ∧ ((2 <= length parts)%nat →
     ∃ symbol filename stem timestamp,
       parts !! 1%nat = Some symbol ∧
       last parts = Some filename ∧
       is_stem stem filename ∧
       extract_symbol_timestamp key = Ok (symbol, timestamp) ∧
       (∀ pre post, PyStr.first_occurrence symbol pre post stem →
                    timestamp = pre +:+ post) ∧
       (¬ PyStr.occurs symbol stem → timestamp = stem))
  ∧ extract_symbol_timestamp "stocks/LYFT/LYFT2025-11-17_15-26-55.csv"
    = Ok ("LYFT", "2025-11-17_15-26-55")
  ∧ (PyStr.has_char "/" key = false →
     extract_symbol_timestamp key
     = Raise (ValueError ("Invalid S3 key format: " +:+ key))).
Proof.
  intros Hseg. split; [by apply extract_one_segment|].
  split; [|split; [reflexivity|]].
  - intros Hlen.
    destruct (parts !! 1%nat) as [symbol|] eqn:Hsym;
      [|apply lookup_ge_None in Hsym; lia].
    destruct (last parts) as [filename|] eqn:Hlast;
      [|apply last_None in Hlast; subst; simpl in Hlen; lia].
    exists symbol, filename, (first_part (PyStr.split "." filename)).
    eexists. split; [done|]. split; [done|].
    split; [apply stem_exists|].
    split; [by apply (extract_two_segments _ parts _ filename), stem_exists|].
    split.
    + intros pre post Hfirst.
      by rewrite (replace1_first _ _ _ _ _ Hfirst), app_empty.
    + apply replace1_absent.
  - intros Hno. unfold extract_symbol_timestamp.
    by rewrite split_without_sep.
Qed.

Lemma extract_symbol_timestamp_contract_witness :
  segments "stocks/LYFT/LYFT2025-11-17_15-26-55.csv"
           ["stocks"; "LYFT"; "LYFT2025-11-17_15-26-55.csv"]
  ∧ ∃ symbol filename stem timestamp,
      ["stocks"; "LYFT"; "LYFT2025-11-17_15-26-55.csv"] !! 1%nat = Some symbol ∧
      last ["stocks"; "LYFT"; "LYFT2025-11-17_15-26-55.csv"] = Some filename ∧
      is_stem stem filename ∧
      extract_symbol_timestamp "stocks/LYFT/LYFT2025-11-17_15-26-55.csv"
      = Ok (symbol, timestamp) ∧
      (∀ pre post, PyStr.first_occurrence symbol pre post stem →
                   timestamp = pre +:+ post) ∧
      (¬ PyStr.occurs symbol stem → timestamp = stem).
Proof.
  assert (segments "stocks/LYFT/LYFT2025-11-17_15-26-55.csv"
            ["stocks"; "LYFT"; "LYFT2025-11-17_15-26-55.csv"]) as Hseg.
  { split; [done|]. split; [by repeat constructor|reflexivity]. }
  split; [exact Hseg|].
  apply (proj1 (proj2 (extract_symbol_timestamp_contract _ _ Hseg))).
  simpl. lia.
Defined.

(** C7: when the stem of the file name does not begin with the symbol but
    contains it, the timestamp is the stem with the leftmost occurrence of
    the symbol deleted, wherever in the stem that occurrence lies. *)
Theorem timestamp_drops_first_occurrence_anywhere
    (key : string) (parts : list string) (symbol filename stem : string) :
  segments key parts →
  parts !! 1%nat = Some symbol →
  last parts = Some filename →
  is_stem stem filename →
  String.prefix symbol stem = false →
  PyStr.occurs symbol stem →
  ∃ pre post,
    PyStr.first_occurrence symbol pre post stem ∧
    pre ≠ EmptyString ∧
    extract_symbol_timestamp key = Ok (symbol, pre +:+ post).
Proof.
  intros Hseg Hsym Hlast Hstem Hpre Hocc.
  destruct (occurs_first _ _ Hocc) as (pre & post & Hfirst).
  exists pre, post. split; [done|]. split.
  - intros ->. destruct Hfirst as [Hs _]. rewrite app_empty in Hs.
    rewrite Hs, prefix_app in Hpre. done.
  - rewrite (extract_two_segments _ _ _ _ _ Hseg Hsym Hlast Hstem).
    by rewrite (replace1_first _ _ _ _ _ Hfirst), app_empty.
Qed.

Lemma timestamp_drops_first_occurrence_anywhere_witness :
  ∃ pre post,
    PyStr.first_occurrence "AB" pre post "x7AB2025AB" ∧
    pre ≠ EmptyString ∧
    extract_symbol_timestamp "stocks/AB/x7AB2025AB.csv" = Ok ("AB", pre +:+ post).
Proof.
  apply (timestamp_drops_first_occurrence_anywhere
           "stocks/AB/x7AB2025AB.csv" ["stocks"; "AB"; "x7AB2025AB.csv"]
           "AB" "x7AB2025AB.csv" "x7AB2025AB").
  - split; [done|]. split; [by repeat constructor|reflexivity].
  - reflexivity.
  - reflexivity.
  - split; [reflexivity|]. right. by exists "csv".
  - reflexivity.
  - by exists "x7", "2025AB".
Defined.

Example extract_symbol_inside_stem :
  extract_symbol_timestamp "stocks/AB/x7AB2025AB.csv" = Ok ("AB", "x72025AB").
Proof. reflexivity. Qed.

(** C10: on a key of at least two segments extraction does not raise; when
    the symbol does not occur in the stem of the file name the timestamp is
    that stem unchanged; and on a key of exactly two segments the symbol is
    the whole second segment, extension included: [stocks/LYFT.csv] gives the
    symbol [LYFT.csv]. *)
Theorem extract_total_on_two_segments (key : string) (parts : list string) :
  segments key parts →
  (2 <= length parts)%nat →
  (∃ symbol filename stem timestamp,
     parts !! 1%nat = Some symbol ∧
     last parts = Some filename ∧
     is_stem stem filename ∧
     extract_symbol_timestamp key = Ok (symbol, timestamp) ∧
     (¬ PyStr.occurs symbol stem → timestamp = stem) ∧
     (length parts = 2%nat → symbol = filename))
  ∧ extract_symbol_timestamp "stocks/LYFT.csv" = Ok ("LYFT.csv", "LYFT").
Proof.
  intros Hseg Hlen. split; [|reflexivity].
  destruct (parts !! 1%nat) as [symbol|] eqn:Hsym;
    [|apply lookup_ge_None in Hsym; lia].
  destruct (last parts) as [filename|] eqn:Hlast;
    [|apply last_None in Hlast; subst; simpl in Hlen; lia].
  exists symbol, filename, (first_part (PyStr.split "." filename)).
  eexists. split; [done|]. split; [done|].
  split; [apply stem_exists|].
  split; [by apply (extract_two_segments _ parts _ filename), stem_exists|].
  split; [apply replace1_absent|].
  intros Hlen2. destruct parts as [|p [|q [|r ps]]]; by simplify_eq/=.
Qed.

Lemma extract_total_on_two_segments_witness :
  ∃ symbol filename stem timestamp,
    ["stocks"; "LYFT.csv"] !! 1%nat = Some symbol ∧
    last ["stocks"; "LYFT.csv"] = Some filename ∧
    is_stem stem filename ∧
    extract_symbol_timestamp "stocks/LYFT.csv" = Ok (symbol, timestamp) ∧
    (¬ PyStr.occurs symbol stem → timestamp = stem) ∧
    (length ["stocks"; "LYFT.csv"] = 2%nat → symbol = filename).
Proof.
  apply (extract_total_on_two_segments "stocks/LYFT.csv" ["stocks"; "LYFT.csv"]).
  - split; [done|]. split; [by repeat constructor|reflexivity].
  - simpl. lia.
Defined.

(** * Properties that involve the interpreter *)

Section WithInterpreter.

Variable Decimal_beyond : string → option Decimal.
Variable int_of_str : string → option Z.

Local Abbreviation Decimal_of_str := (Decimal_of_str Decimal_beyond).
Local Abbreviation safe_decimal := (safe_decimal Decimal_beyond).
Local Abbreviation decimal_or_zero := (decimal_or_zero Decimal_beyond).
Local Abbreviation py_int := (py_int int_of_str).
Local Abbreviation build_item := (build_item Decimal_beyond int_of_str).
Local Abbreviation built := (built Decimal_beyond int_of_str).

(** ** Numeric coercion never raises *)

Lemma safe_decimal_ok value : ∃ d, safe_decimal value = Ok d.
Proof.
  unfold safe_decimal. destruct (Decimal_of_str (py_str value)); eauto.
Qed.

(** ** Rows of one file *)

Lemma M_bind_unfold {A B} (m : M A) (k : A → M B) t :
  (m ≫= k) t = match m t with
               | (Ok a, t') => k a t'
               | (Raise e, t') => (Raise e, t')
               end.
Proof. reflexivity. Qed.

Lemma outcome_bind_Ok {A B} (a : A) (k : A → outcome B) : (Ok a ≫= k) = k a.
Proof. reflexivity. Qed.

Lemma outcome_bind_Raise {A B} e (k : A → outcome B) : (Raise e ≫= k) = Raise e.
Proof. reflexivity. Qed.

Lemma outcome_bind_inv {A B} (o : outcome A) (k : A → outcome B) b :
  (o ≫= k) = Ok b → ∃ a, o = Ok a ∧ k a = Ok b.
Proof. destruct o; [eauto|done]. Qed.

(** A row whose volume is not an integer has no item. *)
Lemma build_item_bad_volume symbol timestamp idx (r : row) v e :
  r !! "volume" = Some v →
  py_int v = Raise e →
  ∃ e', build_item symbol timestamp idx r = Raise e'.
Proof.
  intros Hv Hint. unfold build_item, row_get. rewrite Hv.
  destruct (r !! "date") as [date|]; [|by eexists].
  rewrite !outcome_bind_Ok.
  destruct (r !! "open") as [o|]; [|by eexists]. rewrite outcome_bind_Ok.
  destruct (safe_decimal_ok o) as [od ->]. rewrite outcome_bind_Ok.
  destruct (r !! "close") as [c|]; [|by eexists]. rewrite outcome_bind_Ok.
  destruct (safe_decimal_ok c) as [cd ->]. rewrite outcome_bind_Ok.
  destruct (r !! "high") as [h|]; [|by eexists]. rewrite outcome_bind_Ok.
  destruct (safe_decimal_ok h) as [hd ->]. rewrite outcome_bind_Ok.
  destruct (r !! "low") as [l|]; [|by eexists]. rewrite outcome_bind_Ok.
  destruct (safe_decimal_ok l) as [ld ->]. rewrite !outcome_bind_Ok.
  rewrite Hint. by eexists.
Qed.

(** The keys of the item built from a row. *)
Lemma build_item_keys symbol timestamp idx (r : row) item :
  build_item symbol timestamp idx r = Ok item →
  ∃ date, r !! "date" = Some date ∧
          symbol_timestamp item = symbol +:+ "_" +:+ timestamp ∧
          row_key item = py_str date +:+ "_" +:+ PyStr.of_nat idx.
Proof.
  unfold build_item, row_get. intros H.
  destruct (r !! "date") as [date|]; [|by rewrite outcome_bind_Raise in H].
  exists date. split; [done|]. rewrite !outcome_bind_Ok in H.
  repeat (apply outcome_bind_inv in H as (? & _ & H)).
  injection H as <-. done.
Qed.

Lemma built_length symbol timestamp idx rows :
  (length (built symbol timestamp idx rows) <= length rows)%nat.
Proof.
  revert idx. induction rows as [|r rows IH]; intros idx; simpl; [done|].
  destruct (build_item _ _ _ r); simpl; [|lia]. specialize (IH (S idx)). lia.
Qed.

Lemma built_stops symbol timestamp idx rows i (r : row) e :
  rows !! i = Some r →
  build_item symbol timestamp (idx + i) r = Raise e →
  (length (built symbol timestamp idx rows) <= i)%nat.
Proof.
  revert idx i. induction rows as [|r0 rows IH]; intros idx i Hr Hb; [done|].
  destruct i as [|i]; simpl in *.
  - injection Hr as ->. rewrite Nat.add_0_r in Hb. by rewrite Hb.
  - destruct (build_item _ _ idx r0); simpl; [|lia].
    apply le_n_S, (IH (S idx)); [done|].
    by replace (S idx + i)%nat with (idx + S i)%nat by lia.
Qed.

Lemma built_lookup symbol timestamp idx rows i item :
  built symbol timestamp idx rows !! i = Some item →
  ∃ r, rows !! i = Some r ∧ build_item symbol timestamp (idx + i) r = Ok item.
Proof.
  revert idx i. induction rows as [|r0 rows IH]; intros idx i H; [done|].
  simpl in H. destruct (build_item _ _ idx r0) as [item0|] eqn:Hb; [|done].
  destruct i as [|i]; simpl in *.
  - injection H as <-. exists r0. by rewrite Nat.add_0_r.
  - destruct (IH _ _ H) as (r & Hr & Hbi). exists r. split; [done|].
    by replace (idx + S i)%nat with (S idx + i)%nat by lia.
Qed.

(** ** The loop body *)

Section HandlerFacts.

Variable json_loads : string → option json.
Variable s3_rows : string → string → option (list row).
Variable put_raises : list Item → Item → bool.
Variable flush_raises : list Item → bool.

Local Abbreviation put_rows := (put_rows Decimal_beyond int_of_str put_raises).
Local Abbreviation insert_file :=
  (insert_file Decimal_beyond int_of_str put_raises flush_raises).
Local Abbreviation handle_record :=
  (handle_record Decimal_beyond int_of_str json_loads s3_rows put_raises flush_raises).
Local Abbreviation handle_records :=
  (handle_records Decimal_beyond int_of_str json_loads s3_rows put_raises flush_raises).
Local Abbreviation lambda_handler :=
  (lambda_handler Decimal_beyond int_of_str json_loads s3_rows put_raises flush_raises).
Local Abbreviation names_object := (names_object json_loads).
Local Abbreviation record_items :=
  (record_items Decimal_beyond int_of_str json_loads s3_rows).
Local Abbreviation located := (located json_loads).

Lemma put_rows_cons symbol timestamp idx r rows t :
  put_rows symbol timestamp idx (r :: rows) t
  = match build_item symbol timestamp idx r with
    | Ok item =>
        let t1 := mkTrace (printed t) (fetched t) (submitted t ++ [item]) in
        if put_raises (submitted t) item then (Raise ClientError, t1)
        else put_rows symbol timestamp (S idx) rows t1
    | Raise e => (Raise e, t)
    end.
Proof.
  simpl. rewrite M_bind_unfold. unfold lift.
  destruct (build_item symbol timestamp idx r) as [item|e]; [|done].
  rewrite M_bind_unfold. unfold put_item.
  by destruct (put_raises (submitted t) item).
Qed.

(** The row loop prints nothing, fetches nothing and hands over a prefix of
    the items of the rows; all of them when it does not raise. *)
Lemma put_rows_trace symbol timestamp rows idx t :
  ∃ n,
    printed (put_rows symbol timestamp idx rows t).2 = printed t ∧
    fetched (put_rows symbol timestamp idx rows t).2 = fetched t ∧
    submitted (put_rows symbol timestamp idx rows t).2
    = submitted t ++ take n (built symbol timestamp idx rows) ∧
    ((put_rows symbol timestamp idx rows t).1 = Ok tt →
     take n (built symbol timestamp idx rows) = built symbol timestamp idx rows ∧
     length (built symbol timestamp idx rows) = length rows).
Proof.
  revert idx t. induction rows as [|r rows IH]; intros idx t.
  - exists 0%nat. simpl. rewrite app_nil_r. auto.
  - rewrite put_rows_cons. simpl built.
    destruct (build_item symbol timestamp idx r) as [item|e].
    + simpl. destruct (put_raises (submitted t) item).
      * exists 1%nat. simpl. rewrite take_0. done.
      * destruct (IH (S idx)
                    (mkTrace (printed t) (fetched t) (submitted t ++ [item])))
          as (n & Hp & Hf & Hs & Hok).
        exists (S n). simpl in *. rewrite Hp, Hf, Hs, <- app_assoc. simpl.
        do 3 (split; [done|]). intros Hr. destruct (Hok Hr) as [-> ->]. done.
    + exists 0%nat. simpl. rewrite app_nil_r. by repeat split.
Qed.

(** The last [try]: it never raises, prints one line, and counts the file
    exactly when every row was handed over and both the loop and the closing
    flush went through. *)
Lemma insert_file_trace key symbol timestamp rows totals t :
  ∃ n line totals',
    (insert_file key symbol timestamp rows totals t).1 = Ok totals' ∧
    printed (insert_file key symbol timestamp rows totals t).2 = printed t ++ [line] ∧
    fetched (insert_file key symbol timestamp rows totals t).2 = fetched t ∧
    submitted (insert_file key symbol timestamp rows totals t).2
    = submitted t ++ take n (built symbol timestamp 0 rows) ∧
    ((totals' = (S totals.1, (totals.2 + length rows)%nat) ∧
      line = ProcessedFile key (length rows) ∧
      take n (built symbol timestamp 0 rows) = built symbol timestamp 0 rows ∧
      length (built symbol timestamp 0 rows) = length rows)
     ∨ (totals' = totals ∧ ∃ e, line = ErrorInsertingRows key e)).
Proof.
  destruct (put_rows_trace symbol timestamp rows 0 t) as (n & Hp & Hf & Hs & Hok).
  exists n. unfold insert_file, try_except. rewrite M_bind_unfold.
  unfold with_batch_writer.
  destruct (put_rows symbol timestamp 0 rows t) as [o t'] eqn:Hrun.
  simpl in Hp, Hf, Hs, Hok.
  destruct ((length (submitted t) <? length (submitted t'))%nat
            && flush_raises (submitted t')).
  - exists (ErrorInsertingRows key ClientError), totals. simpl.
    rewrite Hp, Hf, Hs. do 4 (split; [done|]). right. eauto.
  - destruct o as [[]|e].
    + exists (ProcessedFile key (length rows)),
        (S totals.1, (totals.2 + length rows)%nat). simpl.
      rewrite Hp, Hf, Hs. do 4 (split; [done|]). left.
      destruct (Hok eq_refl). done.
    + exists (ErrorInsertingRows key e), totals. simpl.
      rewrite Hp, Hf, Hs. do 4 (split; [done|]). right. eauto.
Qed.

(** A sub-message that names a readable object goes on to the last [try],
    after one fetch. *)
Lemma handle_record_file record bucket key symbol timestamp rows totals t :
  names_object record bucket key →
  extract_symbol_timestamp key = Ok (symbol, timestamp) →
  s3_rows bucket key = Some rows →
  handle_record totals record t
  = insert_file (JStr key) symbol timestamp rows totals
      (mkTrace (printed t) (fetched t ++ [(bucket, key)]) (submitted t)).
Proof.
  intros (s3_record & Hrec & Hbk) Hext Hrows.
  unfold handle_record, try_except at 1, lift at 1. rewrite Hrec.
  rewrite M_bind_unfold. unfold lift at 1. rewrite Hbk.
  unfold try_except at 1, lift at 1. simpl extract_from. rewrite Hext.
  unfold try_except at 1, process_csv. rewrite Hrows. done.
Qed.

(** The loop body, stage by stage. *)
Lemma handle_record_unfold totals record t :
  handle_record totals record t
  = match s3_record_of json_loads record with
    | Raise e => (print (ErrorParsingRecord e) ;; mret totals) t
    | Ok s3_record =>
        match bucket_and_key s3_record with
        | Raise e => (Raise e, t)
        | Ok (bucket, key) =>
            match extract_from key with
            | Raise e => (print (ErrorExtractingKey key e) ;; mret totals) t
            | Ok (symbol, timestamp) =>
                match process_csv s3_rows bucket key t with
                | (Raise e, t1) => (print (ErrorReadingCsv key e) ;; mret totals) t1
                | (Ok rows, t1) => insert_file key symbol timestamp rows totals t1
                end
            end
        end
    end.
Proof.
  unfold handle_record, try_except at 1, lift at 1.
  destruct (s3_record_of json_loads record) as [s3_record|e]; [|done].
  rewrite M_bind_unfold. unfold lift at 1.
  destruct (bucket_and_key s3_record) as [[bucket key]|e]; [|done].
  unfold try_except at 1, lift at 1.
  destruct (extract_from key) as [[symbol timestamp]|e]; [|done].
  unfold try_except at 1.
  by destruct (process_csv s3_rows bucket key t) as [[rows|e] t1].
Qed.

Lemma handle_records_app totals0 before after t0 :
  handle_records totals0 (before ++ after) t0
  = match handle_records totals0 before t0 with
    | (Ok totals, t) => handle_records totals after t
    | (Raise e, t) => (Raise e, t)
    end.
Proof.
  revert totals0 t0. induction before as [|record before IH]; intros totals0 t0.
  - done.
  - simpl. rewrite !M_bind_unfold.
    destruct (handle_record totals0 record t0) as [[totals1|e] t1]; [|done].
    apply IH.
Qed.

(** Whatever happens, a sub-message hands over a prefix of its items; all
    of them when its file is counted. *)
Lemma handle_record_submitted totals record t :
  ∃ n, submitted (handle_record totals record t).2
       = submitted t ++ take n (record_items record) ∧
       (∀ m, (handle_record totals record t).1 = Ok (S totals.1, m) →
             take n (record_items record) = record_items record).
Proof.
  assert (∀ m, Ok totals ≠ Ok (S totals.1, m)) as Hsame.
  { intros m H. destruct totals as [f rw]. simpl in H. injection H as Hf _. lia. }
  rewrite handle_record_unfold. unfold record_items.
  destruct (s3_record_of json_loads record) as [s3_record|e].
  2: { exists 0%nat. simpl. rewrite app_nil_r. split; [done|]. intros m H.
       by apply Hsame in H. }
  destruct (bucket_and_key s3_record) as [[bucket key]|e].
  2: { exists 0%nat. simpl. by rewrite app_nil_r. }
  unfold extract_from.
  destruct key as [| | |key| |];
    try (exists 0%nat; simpl; rewrite app_nil_r; split; [done|]; intros ? H;
         by apply Hsame in H).
  destruct (extract_symbol_timestamp key) as [[symbol timestamp]|e].
  2: { exists 0%nat. simpl. rewrite app_nil_r. split; [done|]. intros m H.
       by apply Hsame in H. }
  unfold process_csv.
  destruct bucket as [| | |bucket| |];
    try (exists 0%nat; simpl; rewrite app_nil_r; split; [done|]; intros ? H;
         by apply Hsame in H).
  destruct (s3_rows bucket key) as [rows|].
  2: { exists 0%nat. simpl. rewrite app_nil_r. split; [done|]. intros m H.
       by apply Hsame in H. }
  destruct (insert_file_trace (JStr key) symbol timestamp rows totals
              (mkTrace (printed t) (fetched t ++ [(bucket, key)]) (submitted t)))
    as (n & line & totals' & Hres & _ & _ & Hs & Hcase).
  exists n. split; [done|]. intros m H. rewrite H in Hres. injection Hres as <-.
  destruct Hcase as [(_ & _ & Htake & _)|[Htot _]]; [done|].
  symmetry in Htot. by apply (f_equal Ok), Hsame in Htot.
Qed.

(** A sub-message asks the store for at most one object: the one its first
    nested record names. *)
Lemma handle_record_fetched totals record t :
  fetched (handle_record totals record t).2 = fetched t
  ∨ ∃ bucket key, names_object record bucket key ∧
      fetched (handle_record totals record t).2 = fetched t ++ [(bucket, key)].
Proof.
  rewrite handle_record_unfold. unfold names_object.
  destruct (s3_record_of json_loads record) as [s3_record|e]; [|by left].
  destruct (bucket_and_key s3_record) as [[bucket key]|e] eqn:Hbk; [|by left].
  unfold extract_from.
  destruct key as [| | |key| |]; try by left.
  destruct (extract_symbol_timestamp key) as [[symbol timestamp]|e]; [|by left].
  unfold process_csv.
  destruct bucket as [| | |bucket| |]; try by left.
  right. exists bucket, key. split; [by exists s3_record|].
  destruct (s3_rows bucket key) as [rows|]; [|reflexivity].
  destruct (insert_file_trace (JStr key) symbol timestamp rows totals
              (mkTrace (printed t) (fetched t ++ [(bucket, key)]) (submitted t)))
    as (n & _ & _ & _ & _ & Hf & _).
  done.
Qed.

(** C3: when the row at position [i] of a file has a volume that does not
    read as an integer, the rows from that one on are abandoned (the items
    handed over are those of fewer than [i + 1] leading rows), the file is
    logged as failed, the loop goes on with the sub-messages that follow, and
    the counters of files and rows stay as they were before the file. *)
Theorem bad_volume_abandons_file
    (record : json) (bucket key symbol timestamp : string) (rows : list row)
    (i : nat) (r : row) (v : cell) (e : exn) (totals : nat * nat) (t : trace) :
  names_object record bucket key →
  extract_symbol_timestamp key = Ok (symbol, timestamp) →
  s3_rows bucket key = Some rows →
  rows !! i = Some r →
  r !! "volume" = Some v →
  py_int v = Raise e →
  ∃ t' items e',
    handle_record totals record t = (Ok totals, t') ∧
    submitted t' = submitted t ++ items ∧
    (length items <= i)%nat ∧
    (∀ j item, items !! j = Some item →
       ∃ rj, rows !! j = Some rj ∧ build_item symbol timestamp j rj = Ok item) ∧
    printed t' = printed t ++ [ErrorInsertingRows (JStr key) e'] ∧
    (∀ before totals0 t0 siblings,
       handle_records totals0 before t0 = (Ok totals, t) →
       handle_records totals0 (before ++ record :: siblings) t0
       = handle_records totals siblings t').
Proof.
  intros Hname Hext Hrows Hr Hv Hint.
  destruct (build_item_bad_volume symbol timestamp i r v e Hv Hint) as [e0 Hbuild].
  pose proof (built_stops symbol timestamp 0 rows i r e0 Hr Hbuild) as Hstop.
  pose proof (lookup_lt_Some _ _ _ Hr) as Hlt.
  rewrite (handle_record_file _ _ _ _ _ _ totals t Hname Hext Hrows).
  destruct (insert_file_trace (JStr key) symbol timestamp rows totals
              (mkTrace (printed t) (fetched t ++ [(bucket, key)]) (submitted t)))
    as (n & line & totals' & Hres & Hp & _ & Hs & Hcase).
  destruct (insert_file (JStr key) symbol timestamp rows totals _) as [o t'] eqn:Hrun.
  simpl in Hres, Hp, Hs. subst o.
  destruct Hcase as [(_ & _ & _ & Hlen)|[-> [e' ->]]]; [lia|].
  exists t', (take n (built symbol timestamp 0 rows)), e'.
  split; [done|]. split; [done|].
  split; [rewrite length_take; lia|].
  split; [intros j item [Hj _]%lookup_take_Some; by apply built_lookup in Hj|].
  split; [done|].
  intros before totals0 t0 siblings Hbefore.
  rewrite handle_records_app, Hbefore. simpl. rewrite M_bind_unfold.
  by rewrite (handle_record_file _ _ _ _ _ _ totals t Hname Hext Hrows), Hrun.
Qed.

(** C5: a file of [n] rows that is counted as processed had exactly [n]
    items handed over, in the order of its rows; the item of the row at
    zero-based position [i] has the partition key [symbol_timestamp] and the
    sort key [date_i], one per row and all with that same partition key. *)
Theorem processed_file_upserts
    (record : json) (bucket key symbol timestamp : string) (rows : list row)
    (totals : nat * nat) (n : nat) (t t' : trace) :
  names_object record bucket key →
  extract_symbol_timestamp key = Ok (symbol, timestamp) →
  s3_rows bucket key = Some rows →
  handle_record totals record t = (Ok (S totals.1, n), t') →
  n = (totals.2 + length rows)%nat ∧
  ∃ items,
    submitted t' = submitted t ++ items ∧
    length items = length rows ∧
    ∀ i r, rows !! i = Some r →
      ∃ item date,
        items !! i = Some item ∧
        r !! "date" = Some date ∧
        symbol_timestamp item = symbol +:+ "_" +:+ timestamp ∧
        row_key item = py_str date +:+ "_" +:+ PyStr.of_nat i.
Proof.
  intros Hname Hext Hrows Hrun.
  rewrite (handle_record_file _ _ _ _ _ _ totals t Hname Hext Hrows) in Hrun.
  destruct (insert_file_trace (JStr key) symbol timestamp rows totals
              (mkTrace (printed t) (fetched t ++ [(bucket, key)]) (submitted t)))
    as (m & line & totals' & Hres & _ & _ & Hs & Hcase).
  rewrite Hrun in Hres, Hs. simpl in Hres, Hs. injection Hres as <-.
  destruct Hcase as [(Htot & _ & Htake & Hlen)|[Htot _]].
  - injection Htot as ->. split; [done|].
    exists (built symbol timestamp 0 rows). rewrite <- Htake at 1.
    split; [done|]. split; [done|].
    intros i r Hr. pose proof (lookup_lt_Some _ _ _ Hr) as Hlt.
    destruct (lookup_lt_is_Some_2 (built symbol timestamp 0 rows) i) as [item Hitem];
      [lia|].
    destruct (built_lookup _ _ _ _ _ _ Hitem) as (r' & Hr' & Hbuild).
    simplify_eq. simpl in Hbuild.
    destruct (build_item_keys _ _ _ _ _ Hbuild) as (date & Hdate & Hpk & Hsk).
    by exists item, date.
  - destruct totals as [f rw]. simpl in Htot. injection Htot as Hf _. lia.
Qed.



Lemma files_logged_app l1 l2 :
  files_logged (l1 ++ l2) = (files_logged l1 + files_logged l2)%nat.
Proof. induction l1 as [|[] l1 IH]; simpl; by rewrite ?IH. Qed.

Lemma rows_logged_app l1 l2 :
  rows_logged (l1 ++ l2) = (rows_logged l1 + rows_logged l2)%nat.
Proof. induction l1 as [|[] l1 IH]; simpl; rewrite ?IH; lia. Qed.

(** The counters move with the lines that report a processed file, and
    with nothing else. *)
Lemma handle_record_logged totals totals' record t t' :
  handle_record totals record t = (Ok totals', t') →
  ∃ line,
    printed t' = printed t ++ [line] ∧
    totals' = ((totals.1 + files_logged [line])%nat,
               (totals.2 + rows_logged [line])%nat).
Proof.
  assert (totals = ((totals.1 + 0)%nat, (totals.2 + 0)%nat)) as Hsame
    by (destruct totals; simpl; f_equal; lia).
  rewrite handle_record_unfold.
  destruct (s3_record_of json_loads record) as [s3_record|e0].
  2: { intros [= <- <-]. by eexists. }
  destruct (bucket_and_key s3_record) as [[bucket key]|e0]; [|done].
  destruct (extract_from key) as [[symbol timestamp]|e0].
  2: { intros [= <- <-]. by eexists. }
  assert (printed (process_csv s3_rows bucket key t).2 = printed t) as Hp1.
  { unfold process_csv, raise. destruct bucket, key; try done.
    by destruct (s3_rows s s0). }
  destruct (process_csv s3_rows bucket key t) as [[rows|e0] t1]; simpl in Hp1.
  2: { intros [= <- <-]. simpl. rewrite Hp1. by eexists. }
  intros Hrun.
  destruct (insert_file_trace key symbol timestamp rows totals t1)
    as (n & line & totals1 & Hres & Hp & _ & _ & Hcase).
  rewrite Hrun in Hres, Hp. simpl in Hres, Hp. injection Hres as <-.
  exists line. rewrite Hp, Hp1. split; [done|].
  destruct Hcase as [(-> & -> & _)|[-> [e' ->]]]; simpl; [|done].
  f_equal; lia.
Qed.

Lemma handle_records_logged totals totals' records t t' :
  handle_records totals records t = (Ok totals', t') →
  ∃ lines,
    printed t' = printed t ++ lines ∧
    totals' = ((totals.1 + files_logged lines)%nat,
               (totals.2 + rows_logged lines)%nat).
Proof.
  revert totals t. induction records as [|record records IH]; intros totals t.
  - intros [= <- <-]. exists []. rewrite app_nil_r. simpl.
    split; [done|]. destruct totals; simpl; f_equal; lia.
  - simpl. rewrite M_bind_unfold.
    destruct (handle_record totals record t) as [[totals1|e1] t1] eqn:Hrun; [|done].
    intros Hrest. apply handle_record_logged in Hrun as (line & Hp1 & ->).
    apply IH in Hrest as (lines & Hp & ->).
    exists (line :: lines). rewrite Hp, Hp1, <- app_assoc. split; [done|].
    change (line :: lines) with ([line] ++ lines).
    rewrite files_logged_app, rows_logged_app. simpl. f_equal; lia.
Qed.

Lemma s3_record_of_first record body (m : gmap string json) first rest :
  getitem record "body" = Ok (JStr body) →
  json_loads body = Some (JObj m) →
  m !! "Records" = Some (JArr (first :: rest)) →
  s3_record_of json_loads record = getitem first "s3".
Proof.
  intros Hb Hl Hm. unfold s3_record_of. rewrite Hb, outcome_bind_Ok.
  unfold loads. rewrite Hl, outcome_bind_Ok.
  change (getitem (JObj m) "Records")
    with (match m !! "Records" with
          | Some x => Ok x
          | None => Raise (KeyError "Records")
          end).
  by rewrite Hm, outcome_bind_Ok.
Qed.

(** C9: of the nested [Records] array of a sub-message only the first
    element is read.  Two sub-messages whose arrays begin with the same
    element are handled alike, whatever follows it, so a sub-message with
    further elements does what the one with the first element alone does;
    and it asks the store for at most one object, the one the first element
    names. *)
Theorem only_first_nested_record
    (record1 record2 : json) (body1 body2 : string) (m1 m2 : gmap string json)
    (first : json) (rest1 rest2 : list json) (totals : nat * nat) (t : trace) :
  getitem record1 "body" = Ok (JStr body1) →
  json_loads body1 = Some (JObj m1) →
  m1 !! "Records" = Some (JArr (first :: rest1)) →
  getitem record2 "body" = Ok (JStr body2) →
  json_loads body2 = Some (JObj m2) →
  m2 !! "Records" = Some (JArr (first :: rest2)) →
  s3_record_of json_loads record1 = getitem first "s3" ∧
  handle_record totals record1 t = handle_record totals record2 t ∧
  (fetched (handle_record totals record1 t).2 = fetched t
   ∨ ∃ s3_record bucket key,
       getitem first "s3" = Ok s3_record ∧
       bucket_and_key s3_record = Ok (JStr bucket, JStr key) ∧
       fetched (handle_record totals record1 t).2 = fetched t ++ [(bucket, key)]).
Proof.
  intros Hb1 Hl1 Hm1 Hb2 Hl2 Hm2.
  pose proof (s3_record_of_first _ _ _ _ _ Hb1 Hl1 Hm1) as H1.
  pose proof (s3_record_of_first _ _ _ _ _ Hb2 Hl2 Hm2) as H2.
  split; [done|]. split.
  - by rewrite !handle_record_unfold, H1, H2.
  - destruct (handle_record_fetched totals record1 t)
      as [?|(bucket & key & (s3_record & Hrec & Hbk) & Hf)]; [by left|].
    right. exists s3_record, bucket, key. by rewrite <- H1.
Qed.

Lemma handle_records_nil totals t : handle_records totals [] t = (Ok totals, t).
Proof. reflexivity. Qed.

Lemma lambda_handler_unfold event context t :
  lambda_handler event context t
  = match event !! "Records" with
    | None => (Ok (mkResponse 400 "No SQS Records"), t)
    | Some records =>
        match py_iter records with
        | Raise e => (Raise e, t)
        | Ok l =>
            match handle_records (0, 0)%nat l t with
            | (Ok totals, t1) => (Ok (mkResponse 200 (summary totals)), t1)
            | (Raise e, t1) => (Raise e, t1)
            end
        end
    end.
Proof.
  unfold lambda_handler. destruct (event !! "Records") as [records|]; [|done].
  rewrite M_bind_unfold. unfold lift at 1.
  destruct (py_iter records) as [l|e]; [|done].
  rewrite M_bind_unfold.
  by destruct (handle_records (0, 0)%nat l t) as [[totals|e] t1].
Qed.

(** The two answers of the handler, and the shape of its summary. *)
Lemma lambda_handler_answers
    (event : gmap string json) (context : json) (t : trace) :
  (event !! "Records" = None ↔
   ∃ resp t', lambda_handler event context t = (Ok resp, t') ∧ statusCode resp = 400%Z)
  ∧ (event !! "Records" = None →
     lambda_handler event context t = (Ok (mkResponse 400 "No SQS Records"), t))
  ∧ (event !! "Records" = Some (JArr []) →
     lambda_handler event context t
     = (Ok (mkResponse 200 "Processed 0 files with 0 rows into DynamoDB"), t))
  ∧ (∀ resp t', lambda_handler event context t = (Ok resp, t') →
       statusCode resp = 200%Z →
       ∃ files rows : nat,
         message resp = "Processed " +:+ PyStr.of_nat files +:+ " files with "
                        +:+ PyStr.of_nat rows +:+ " rows into DynamoDB").
Proof.
  rewrite lambda_handler_unfold.
  destruct (event !! "Records") as [records|] eqn:Hrec.
  - destruct (py_iter records) as [l|e] eqn:Hiter.
    + destruct (handle_records (0, 0)%nat l t) as [[totals|e] t1] eqn:Hrun.
      * split; [split; [done|]; by intros (resp & t' & [= <- <-] & ?)|].
        split; [done|]. split.
        { intros [= ->]. simpl in Hiter. injection Hiter as <-.
          rewrite handle_records_nil in Hrun. by injection Hrun as <- <-. }
        intros resp t' [= <- <-] _. by exists totals.1, totals.2.
      * split; [split; [done|]; by intros (resp & t' & [=] & ?)|].
        split; [done|]. split; [|by intros resp t' [=]].
        intros [= ->]. simpl in Hiter. injection Hiter as <-.
        by rewrite handle_records_nil in Hrun.
    + split; [split; [done|]; by intros (resp & t' & [=] & ?)|].
      split; [done|]. split; [|by intros resp t' [=]].
      intros [= ->]. by simpl in Hiter.
  - split; [split; [|done]; intros _; by eexists _, _|].
    split; [done|]. split; [done|].
    intros resp t' [= <- <-] Hst. by simpl in Hst.
Qed.

(** The numbers of the summary are those of the loop, which are those of the
    lines [Processed ... with ... rows] that the invocation printed. *)
Lemma lambda_handler_counts
    (event : gmap string json) (context : json) (t : trace)
    (v : json) (resp : response) (t' : trace) :
  event !! "Records" = Some v →
  lambda_handler event context t = (Ok resp, t') →
  ∃ records lines,
    py_iter v = Ok records ∧
    handle_records (0, 0)%nat records t
    = (Ok (files_logged lines, rows_logged lines), t') ∧
    printed t' = printed t ++ lines ∧
    resp = mkResponse 200
             ("Processed " +:+ PyStr.of_nat (files_logged lines) +:+ " files with "
              +:+ PyStr.of_nat (rows_logged lines) +:+ " rows into DynamoDB").
Proof.
  intros Hrec. rewrite lambda_handler_unfold, Hrec.
  destruct (py_iter v) as [records|e]; [|done].
  destruct (handle_records (0, 0)%nat records t) as [[totals|e] t1] eqn:Hrun; [|done].
  intros [= <- <-].
  destruct (handle_records_logged _ _ _ _ _ Hrun) as (lines & Hprinted & ->).
  by exists records, lines.
Qed.

(** C4: the handler answers 400 with [No SQS Records] exactly when the
    envelope has no [Records] field, and then does nothing else; with an
    empty [Records] list it answers 200 and reports 0 files and 0 rows; and
    whenever it answers 200 its message reads
    [Processed <files> files with <rows> rows into DynamoDB].  Whenever it
    returns on an envelope that has [Records], the answer is 200 and the two
    numbers are the totals the loop over the sub-messages ended with: the
    number of files it logged as processed during this invocation, and the
    sum of the row counts of those log lines. *)
Theorem lambda_handler_responses
    (event : gmap string json) (context : json) (t : trace) :
  (event !! "Records" = None ↔
   ∃ resp t', lambda_handler event context t = (Ok resp, t') ∧ statusCode resp = 400%Z)
  ∧ (event !! "Records" = None →
     lambda_handler event context t = (Ok (mkResponse 400 "No SQS Records"), t))
  ∧ (event !! "Records" = Some (JArr []) →
     lambda_handler event context t
     = (Ok (mkResponse 200 "Processed 0 files with 0 rows into DynamoDB"), t))
  ∧ (∀ resp t', lambda_handler event context t = (Ok resp, t') →
       statusCode resp = 200%Z →
       ∃ files rows : nat,
         message resp = "Processed " +:+ PyStr.of_nat files +:+ " files with "
                        +:+ PyStr.of_nat rows +:+ " rows into DynamoDB")
  ∧ (∀ v resp t',
       event !! "Records" = Some v →
       lambda_handler event context t = (Ok resp, t') →
       ∃ records lines,
         py_iter v = Ok records ∧
         handle_records (0, 0)%nat records t
         = (Ok (files_logged lines, rows_logged lines), t') ∧
         printed t' = printed t ++ lines ∧
         resp = mkResponse 200
                  ("Processed " +:+ PyStr.of_nat (files_logged lines)
                   +:+ " files with " +:+ PyStr.of_nat (rows_logged lines)
                   +:+ " rows into DynamoDB")).
Proof.
  destruct (lambda_handler_answers event context t) as (H400 & Hnone & Hnil & H200).
  split; [exact H400|]. split; [exact Hnone|]. split; [exact Hnil|].
  split; [exact H200|]. intros v resp t'. apply lambda_handler_counts.
Qed.

(** A sub-message that the first [try] rejects is logged and skipped. *)
Lemma parse_failure_skips totals record e t :
  s3_record_of json_loads record = Raise e →
  handle_record totals record t
  = (Ok totals, mkTrace (printed t ++ [ErrorParsingRecord e]) (fetched t) (submitted t)).
Proof. intros H. by rewrite handle_record_unfold, H. Qed.

(** A sub-message that passes the first [try] but has no bucket name or no
    object key raises out of the loop body: the two lookups stand between
    the [try] blocks. *)
Lemma missing_bucket_or_key_raises totals record s3_record e t :
  s3_record_of json_loads record = Ok s3_record →
  bucket_and_key s3_record = Raise e →
  handle_record totals record t = (Raise e, t).
Proof. intros H1 H2. by rewrite handle_record_unfold, H1, H2. Qed.

Lemma handle_record_returns totals record t :
  located record → ∃ totals', (handle_record totals record t).1 = Ok totals'.
Proof.
  intros Hloc. rewrite handle_record_unfold.
  destruct (s3_record_of json_loads record) as [s3_record|e] eqn:Hrec;
    [|by exists totals].
  destruct (Hloc s3_record Hrec) as (bucket & key & ->).
  destruct (extract_from key) as [[symbol timestamp]|e]; [|by exists totals].
  destruct (process_csv s3_rows bucket key t) as [[rows|e] t1]; [|by exists totals].
  destruct (insert_file_trace key symbol timestamp rows totals t1)
    as (_ & _ & totals' & Hres & _).
  by exists totals'.
Qed.

(** What the loop does guarantee: over located sub-messages, however many
    of them fail, the handler returns its 200 summary. *)
Lemma located_batch_returns_summary event context records t :
  event !! "Records" = Some (JArr records) →
  Forall located records →
  ∃ totals t',
    lambda_handler event context t = (Ok (mkResponse 200 (summary totals)), t').
Proof.
  intros Hrec Hall. rewrite lambda_handler_unfold, Hrec. simpl.
  assert (∀ totals0 t0, ∃ totals t',
            handle_records totals0 records t0 = (Ok totals, t')) as Hloop.
  { clear Hrec. induction Hall as [|record records Hloc _ IH]; intros totals0 t0.
    - by exists totals0, t0.
    - simpl. rewrite M_bind_unfold.
      destruct (handle_record_returns totals0 record t0 Hloc) as [totals1 H1].
      destruct (handle_record totals0 record t0) as [o t1]. simpl in H1. subst o.
      apply IH. }
  destruct (Hloop (0, 0)%nat t) as (totals & t' & ->). by exists totals, t'.
Qed.

End HandlerFacts.

(** ** Reprocessing *)



(** * Further properties of the code *)

(** ** Keys and their segments *)

Lemma str_app_assoc s t u : (s +:+ t) +:+ u = s +:+ t +:+ u.
Proof. induction s as [|a s IH]; [done|]. by rewrite !app_cons, IH. Qed.

Lemma str_app_empty_r s : s +:+ EmptyString = s.
Proof. induction s as [|a s IH]; [done|]. by rewrite app_cons, IH. Qed.

Lemma has_char_app c s1 s2 :
  PyStr.has_char c (s1 +:+ s2) = PyStr.has_char c s1 || PyStr.has_char c s2.
Proof.
  induction s1 as [|a s1 IH]; [done|].
  rewrite app_cons. simpl. by rewrite IH, orb_assoc.
Qed.

Lemma has_char_drop c n s :
  PyStr.has_char c s = false → PyStr.has_char c (PyStr.drop n s) = false.
Proof.
  revert s. induction n as [|n IH]; intros [|a s]; simpl; try done.
  intros [_ Hs]%orb_false_elim. by apply IH.
Qed.

(** Deleting an occurrence brings in no character. *)
Lemma has_char_replace1 c old s :
  PyStr.has_char c s = false →
  PyStr.has_char c (PyStr.replace1 old "" s) = false.
Proof.
  induction s as [|a s IH]; intros Hs; rewrite replace1_unfold.
  - destruct (String.prefix old ""); [|done].
    rewrite app_empty. by apply has_char_drop.
  - destruct (String.prefix old (String a s)).
    + rewrite app_empty. by apply has_char_drop.
    + simpl in *. apply orb_false_elim in Hs as [-> Hs]. by apply IH.
Qed.

(** Splitting on one character brings no other character in. *)
Lemma split_keeps_absent c d s :
  PyStr.has_char c s = false →
  Forall (λ p, PyStr.has_char c p = false) (PyStr.split d s).
Proof.
  induction s as [|a s IH]; simpl; [by repeat constructor|].
  intros [Ha Hs]%orb_false_elim. specialize (IH Hs).
  destruct (Ascii.eqb a d); [by constructor|].
  destruct (PyStr.split d s) as [|q ps]; simpl.
  - repeat constructor. simpl. by rewrite Ha.
  - inversion IH; subst. constructor; [|done]. simpl. by rewrite Ha.
Qed.

Lemma Forall_last_part (P : string → Prop) parts :
  P EmptyString → Forall P parts → P (last_part parts).
Proof.
  intros H0 Hall. unfold last_part.
  induction Hall as [|p [|q ps] Hp Hps IH]; simpl; auto.
Qed.

Lemma Forall_first_part (P : string → Prop) parts :
  P EmptyString → Forall P parts → P (first_part parts).
Proof. intros H0 Hall. by destruct Hall. Qed.

(** X1: the segments of a key are what [split] returns and nothing else:
    a list of slash-free strings joins to the key exactly when it is the
    result of splitting the key. *)
Theorem segments_iff_split (key : string) (parts : list string) :
  segments key parts ↔ PyStr.split "/" key = parts.
Proof.
  split; [apply split_segments|]. intros <-. apply segments_split.
Qed.

Lemma extract_clean (key symbol timestamp : string) :
  extract_symbol_timestamp key = Ok (symbol, timestamp) →
  PyStr.has_char "/" symbol = false ∧
  PyStr.has_char "/" timestamp = false ∧
  PyStr.has_char "." timestamp = false.
Proof.
  unfold extract_symbol_timestamp.
  pose proof (split_has_no_sep "/" key) as Hall.
  destruct (length (PyStr.split "/" key) <? 2)%nat; [done|].
  intros [= <- <-]. split; [|split].
  - destruct (PyStr.split "/" key) as [|p [|q ps]]; [done..|].
    simpl. inversion Hall as [|? ? _ Hq]; subst. by inversion Hq.
  - apply has_char_replace1.
    apply (Forall_first_part (λ p, PyStr.has_char "/" p = false)); [done|].
    apply split_keeps_absent.
    by apply (Forall_last_part (λ p, PyStr.has_char "/" p = false)).
  - apply has_char_replace1.
    apply (Forall_first_part (λ p, PyStr.has_char "." p = false)); [done|].
    apply split_has_no_sep.
Qed.

(** X2: whatever the key, an extracted symbol holds no slash and an
    extracted timestamp holds neither a slash nor a dot. *)
Theorem extracted_parts_are_clean (key symbol timestamp : string) :
  extract_symbol_timestamp key = Ok (symbol, timestamp) →
  PyStr.has_char "/" symbol = false ∧
  PyStr.has_char "/" timestamp = false ∧
  PyStr.has_char "." timestamp = false.
Proof. apply extract_clean. Qed.

Lemma extracted_parts_are_clean_witness :
  PyStr.has_char "/" "LYFT" = false ∧
  PyStr.has_char "/" "2025-11-17_15-26-55" = false ∧
  PyStr.has_char "." "2025-11-17_15-26-55" = false.
Proof.
  apply (extracted_parts_are_clean "stocks/LYFT/LYFT2025-11-17_15-26-55.csv").
  reflexivity.
Defined.

(** X3: the naming convention round-trips.  For a one-segment prefix, a
    symbol and a timestamp free of slashes and dots, and any slash-free
    extension, the key [prefix/symbol/symbol+timestamp.ext] gives back that
    symbol and that timestamp. *)
Theorem extract_of_conventional_key (pre symbol timestamp ext : string) :
  PyStr.has_char "/" pre = false →
  PyStr.has_char "/" symbol = false →
  PyStr.has_char "." symbol = false →
  PyStr.has_char "/" timestamp = false →
  PyStr.has_char "." timestamp = false →
  PyStr.has_char "/" ext = false →
  extract_symbol_timestamp
    (pre +:+ "/" +:+ symbol +:+ "/" +:+ symbol +:+ timestamp +:+ "." +:+ ext)
  = Ok (symbol, timestamp).
Proof.
  intros Hp Hs Hsd Ht Htd He.
  set (filename := symbol +:+ timestamp +:+ "." +:+ ext).
  assert (PyStr.has_char "/" filename = false) as Hf.
  { unfold filename. rewrite !has_char_app, Hs, Ht, He. done. }
  rewrite (extract_two_segments _ [pre; symbol; filename] symbol filename
             (symbol +:+ timestamp)).
  - by rewrite replace1_unfold, prefix_app, drop_app.
  - split; [done|]. split; [by repeat constructor|]. done.
  - done.
  - done.
  - split; [by rewrite has_char_app, Hsd, Htd|]. right. exists ext.
    unfold filename. by rewrite str_app_assoc.
Qed.

Lemma extract_of_conventional_key_witness :
  extract_symbol_timestamp
    ("stocks" +:+ "/" +:+ "UBER" +:+ "/" +:+ "UBER" +:+ "2025-11-17_15-26-55" +:+ "." +:+ "csv")
  = Ok ("UBER", "2025-11-17_15-26-55").
Proof.
  by apply (extract_of_conventional_key "stocks" "UBER" "2025-11-17_15-26-55" "csv").
Defined.

Lemma segments_iff_split_witness :
  segments "stocks/LYFT.csv" ["stocks"; "LYFT.csv"].
Proof. apply (segments_iff_split "stocks/LYFT.csv" ["stocks"; "LYFT.csv"]). reflexivity. Defined.

(** ** Sort keys *)

Lemma digits_have_no_underscore d :
  PyStr.has_char "_" (NilEmpty.string_of_uint d) = false.
Proof. induction d; simpl; done. Qed.

Lemma of_nat_no_underscore n : PyStr.has_char "_" (PyStr.of_nat n) = false.
Proof.
  unfold PyStr.of_nat, NilZero.string_of_uint.
  destruct (Nat.to_uint n); try apply digits_have_no_underscore. done.
Qed.

Lemma to_uint_not_Nil n : Nat.to_uint n ≠ Decimal.Nil.
Proof.
  intros H. pose proof (DecimalNat.Unsigned.of_to n) as Hn. rewrite H in Hn.
  simpl in Hn. subst n. done.
Qed.

Lemma of_nat_inj n m : PyStr.of_nat n = PyStr.of_nat m → n = m.
Proof.
  unfold PyStr.of_nat. intros H.
  apply DecimalNat.Unsigned.to_uint_inj.
  pose proof (NilZero.usu _ (to_uint_not_Nil n)) as Hn.
  pose proof (NilZero.usu _ (to_uint_not_Nil m)) as Hm.
  rewrite H in Hn. congruence.
Qed.

(** What follows the last underscore of a string is determined by the
    string. *)
Lemma after_last_underscore a b d1 d2 :
  PyStr.has_char "_" d1 = false →
  PyStr.has_char "_" d2 = false →
  a +:+ String "_" d1 = b +:+ String "_" d2 →
  a = b ∧ d1 = d2.
Proof.
  intros H1 H2. revert b. induction a as [|c a IH]; intros [|c' b] H;
    rewrite ?app_empty, ?app_cons in H.
  - by injection H.
  - injection H as <- ->.
    rewrite has_char_app in H1. simpl in H1. by rewrite orb_true_r in H1.
  - injection H as -> <-.
    rewrite has_char_app in H2. simpl in H2. by rewrite orb_true_r in H2.
  - injection H as <- H. destruct (IH _ H) as [-> ->]. done.
Qed.

Lemma build_item_row_key s t k (r : row) item :
  build_item s t k r = Ok item →
  row_key item = py_str (item_date item) +:+ "_" +:+ PyStr.of_nat k.
Proof.
  intros H. unfold build_item, row_get in H.
  destruct (r !! "date") as [date|]; [|by rewrite outcome_bind_Raise in H].
  rewrite !outcome_bind_Ok in H.
  repeat (apply outcome_bind_inv in H as (? & _ & H)).
  injection H as <-. done.
Qed.

(** X4: the sort key is unique per row.  Items built at two different row
    positions have different sort keys, whatever the dates of the rows are
    (the position is what follows the last underscore of the key). *)
Theorem row_keys_differ_across_rows
    (symbol1 timestamp1 symbol2 timestamp2 : string) (i j : nat) (r1 r2 : row)
    (item1 item2 : Item) :
  build_item symbol1 timestamp1 i r1 = Ok item1 →
  build_item symbol2 timestamp2 j r2 = Ok item2 →
  i ≠ j →
  row_key item1 ≠ row_key item2.
Proof.
  intros H1 H2 Hij Hkey.
  rewrite (build_item_row_key _ _ _ _ _ H1), (build_item_row_key _ _ _ _ _ H2) in Hkey.
  change (?x +:+ "_" +:+ ?n) with (x +:+ String "_" n) in Hkey.
  apply after_last_underscore in Hkey as [_ Hn]; try apply of_nat_no_underscore.
  by apply of_nat_inj in Hn.
Qed.

(** ** Rows and items *)

Lemma safe_decimal_value c : safe_decimal c = Ok (decimal_or_zero c).
Proof.
  unfold safe_decimal, decimal_or_zero. by destruct (Decimal_of_str (py_str c)).
Qed.

Lemma build_item_iff
    (symbol timestamp : string) (idx : nat) (r : row) (item : Item) :
  build_item symbol timestamp idx r = Ok item ↔
  ∃ date open close high low volume n,
    r !! "date" = Some date ∧ r !! "open" = Some open ∧
    r !! "close" = Some close ∧ r !! "high" = Some high ∧
    r !! "low" = Some low ∧ r !! "volume" = Some volume ∧
    py_int volume = Ok n ∧
    item = mkItem (symbol +:+ "_" +:+ timestamp)
                  (py_str date +:+ "_" +:+ PyStr.of_nat idx)
                  symbol timestamp date
                  (decimal_or_zero open) (decimal_or_zero close)
                  (decimal_or_zero high) (decimal_or_zero low) n.
Proof.
  unfold build_item, row_get. split.
  - intros H.
    destruct (r !! "date") as [date|]; [|by rewrite outcome_bind_Raise in H].
    rewrite !outcome_bind_Ok in H.
    destruct (r !! "open") as [o|]; [|by rewrite outcome_bind_Raise in H].
    rewrite outcome_bind_Ok, safe_decimal_value, outcome_bind_Ok in H.
    destruct (r !! "close") as [c|]; [|by rewrite outcome_bind_Raise in H].
    rewrite outcome_bind_Ok, safe_decimal_value, outcome_bind_Ok in H.
    destruct (r !! "high") as [h|]; [|by rewrite outcome_bind_Raise in H].
    rewrite outcome_bind_Ok, safe_decimal_value, outcome_bind_Ok in H.
    destruct (r !! "low") as [l|]; [|by rewrite outcome_bind_Raise in H].
    rewrite outcome_bind_Ok, safe_decimal_value, outcome_bind_Ok in H.
    destruct (r !! "volume") as [v|]; [|by rewrite outcome_bind_Raise in H].
    rewrite outcome_bind_Ok in H.
    destruct (py_int v) as [n|e] eqn:Hn; [|by rewrite outcome_bind_Raise in H].
    rewrite outcome_bind_Ok in H. injection H as <-.
    by exists date, o, c, h, l, v, n.
  - intros (date & o & c & h & l & v & n & -> & -> & -> & -> & -> & -> & Hn & ->).
    rewrite !outcome_bind_Ok, !safe_decimal_value, !outcome_bind_Ok.
    rewrite safe_decimal_value, !outcome_bind_Ok.
    rewrite safe_decimal_value, !outcome_bind_Ok.
    rewrite safe_decimal_value, !outcome_bind_Ok.
    by rewrite Hn, outcome_bind_Ok.
Qed.

(** A row that lacks one of the six columns has no item. *)
Lemma build_item_missing_column symbol timestamp idx (r : row) column :
  column ∈ required_columns →
  r !! column = None →
  ∃ e, build_item symbol timestamp idx r = Raise e.
Proof.
  intros Hcol Hnone.
  destruct (build_item symbol timestamp idx r) as [item|e] eqn:Hb; [|by exists e].
  apply build_item_iff in Hb
    as (date & o & c & h & l & v & n & Hd & Ho & Hc & Hh & Hl & Hv & _).
  unfold required_columns in Hcol.
  repeat (apply elem_of_cons in Hcol as [->|Hcol]; [congruence|]).
  by apply elem_of_nil in Hcol.
Qed.

Lemma built_all symbol timestamp idx rows :
  length (built symbol timestamp idx rows) = length rows ↔
  ∀ i r, rows !! i = Some r →
         ∃ item, build_item symbol timestamp (idx + i) r = Ok item.
Proof.
  split.
  - intros Hlen i r Hr. pose proof (lookup_lt_Some _ _ _ Hr) as Hlt.
    destruct (lookup_lt_is_Some_2 (built symbol timestamp idx rows) i) as [item Hi];
      [lia|].
    destruct (built_lookup _ _ _ _ _ _ Hi) as (r' & Hr' & Hb).
    simplify_eq. by exists item.
  - revert idx. induction rows as [|r rows IH]; intros idx Hall; [done|].
    simpl. destruct (Hall 0%nat r eq_refl) as [item Hb].
    rewrite Nat.add_0_r in Hb. rewrite Hb. simpl. f_equal. apply IH.
    intros i r' Hr'. destruct (Hall (S i) r' Hr') as [item' Hb'].
    exists item'. by replace (S idx + i)%nat with (idx + S i)%nat by lia.
Qed.

Lemma built_exact symbol timestamp idx rows i (r : row) e :
  (∀ j rj, (j < i)%nat → rows !! j = Some rj →
           ∃ item, build_item symbol timestamp (idx + j) rj = Ok item) →
  rows !! i = Some r →
  build_item symbol timestamp (idx + i) r = Raise e →
  length (built symbol timestamp idx rows) = i.
Proof.
  revert idx rows. induction i as [|i IH]; intros idx [|r0 rows] Hbefore Hr Hb;
    try done; simpl in *.
  - injection Hr as ->. rewrite Nat.add_0_r in Hb. by rewrite Hb.
  - destruct (Hbefore 0%nat r0 ltac:(lia) eq_refl) as [item0 Hb0].
    rewrite Nat.add_0_r in Hb0. rewrite Hb0. simpl. f_equal.
    apply (IH (S idx)); [|done|by replace (S idx + i)%nat with (idx + S i)%nat by lia].
    intros j rj Hj Hrj. destruct (Hbefore (S j) rj ltac:(lia) Hrj) as [item Hbj].
    exists item. by replace (S idx + j)%nat with (idx + S j)%nat by lia.
Qed.

(** ** Files, one stage after the other *)

Section HandlerMore.

Variable json_loads : string → option json.
Variable s3_rows : string → string → option (list row).
Variable put_raises : list Item → Item → bool.
Variable flush_raises : list Item → bool.

Local Abbreviation put_rows := (put_rows Decimal_beyond int_of_str put_raises).
Local Abbreviation insert_file :=
  (insert_file Decimal_beyond int_of_str put_raises flush_raises).
Local Abbreviation handle_record :=
  (handle_record Decimal_beyond int_of_str json_loads s3_rows put_raises flush_raises).
Local Abbreviation handle_records :=
  (handle_records Decimal_beyond int_of_str json_loads s3_rows put_raises flush_raises).
Local Abbreviation lambda_handler :=
  (lambda_handler Decimal_beyond int_of_str json_loads s3_rows put_raises flush_raises).
Local Abbreviation names_object := (names_object json_loads).
Local Abbreviation accepting := (accepting put_raises flush_raises).

(** With writes that go through, the row loop stops at the first row
    without item, having handed over the items of the rows before it. *)
Lemma put_rows_stops symbol timestamp rows idx i (r : row) e t :
  (∀ before item, put_raises before item = false) →
  (∀ j rj, (j < i)%nat → rows !! j = Some rj →
           ∃ item, build_item symbol timestamp (idx + j) rj = Ok item) →
  rows !! i = Some r →
  build_item symbol timestamp (idx + i) r = Raise e →
  put_rows symbol timestamp idx rows t
  = (Raise e, mkTrace (printed t) (fetched t)
                (submitted t ++ built symbol timestamp idx rows)).
Proof.
  intros Hput. revert idx rows t.
  induction i as [|i IH]; intros idx [|r0 rows] t Hbefore Hr Hb; try done;
    rewrite put_rows_cons; simpl in *.
  - injection Hr as ->. rewrite Nat.add_0_r in Hb. rewrite Hb.
    rewrite app_nil_r. by destruct t.
  - destruct (Hbefore 0%nat r0 ltac:(lia) eq_refl) as [item0 Hb0].
    rewrite Nat.add_0_r in Hb0. rewrite Hb0, Hput.
    rewrite (IH (S idx) rows _); simpl.
    + by rewrite <- app_assoc.
    + intros j rj Hj Hrj. destruct (Hbefore (S j) rj ltac:(lia) Hrj) as [item Hbj].
      exists item. rewrite <- Hbj. f_equal. lia.
    + done.
    + rewrite <- Hb. f_equal. lia.
Qed.

(** With writes that go through and rows that all have an item, the row
    loop hands every item over and returns. *)
Lemma put_rows_all symbol timestamp rows idx t :
  (∀ before item, put_raises before item = false) →
  (∀ i r, rows !! i = Some r →
          ∃ item, build_item symbol timestamp (idx + i) r = Ok item) →
  put_rows symbol timestamp idx rows t
  = (Ok tt, mkTrace (printed t) (fetched t)
              (submitted t ++ built symbol timestamp idx rows)).
Proof.
  intros Hput. revert idx t.
  induction rows as [|r rows IH]; intros idx t Hall.
  - simpl. rewrite app_nil_r. by destruct t.
  - rewrite put_rows_cons. simpl.
    destruct (Hall 0%nat r eq_refl) as [item Hb].
    rewrite Nat.add_0_r in Hb. rewrite Hb, Hput.
    rewrite (IH (S idx) _); simpl.
    + by rewrite <- app_assoc.
    + intros i r' Hr'. destruct (Hall (S i) r' Hr') as [item' Hb'].
      exists item'. rewrite <- Hb'. f_equal. lia.
Qed.

Lemma insert_file_unfold key symbol timestamp rows totals t :
  insert_file key symbol timestamp rows totals t
  = match put_rows symbol timestamp 0 rows t with
    | (o, t1) =>
        let line e := mkTrace (printed t1 ++ [ErrorInsertingRows key e])
                        (fetched t1) (submitted t1) in
        if (length (submitted t) <? length (submitted t1))%nat
           && flush_raises (submitted t1)
        then (Ok totals, line ClientError)
        else match o with
             | Ok _ =>
                 (Ok (S totals.1, (totals.2 + length rows)%nat),
                  mkTrace (printed t1 ++ [ProcessedFile key (length rows)])
                    (fetched t1) (submitted t1))
             | Raise e => (Ok totals, line e)
             end
    end.
Proof.
  unfold insert_file, try_except. rewrite M_bind_unfold. unfold with_batch_writer.
  destruct (put_rows symbol timestamp 0 rows t) as [o t1].
  destruct ((length (submitted t) <? length (submitted t1))%nat
            && flush_raises (submitted t1)); [done|].
  by destruct o.
Qed.

(** X6: any row that lacks one of the six columns makes the file fail like
    a bad volume does: the loop body returns with the counters unchanged,
    logs the file as failed, and has handed over items of rows before that
    one only. *)
Theorem missing_column_abandons_file
    (record : json) (bucket key symbol timestamp : string) (rows : list row)
    (i : nat) (r : row) (column : string) (totals : nat * nat) (t : trace) :
  names_object record bucket key →
  extract_symbol_timestamp key = Ok (symbol, timestamp) →
  s3_rows bucket key = Some rows →
  rows !! i = Some r →
  column ∈ required_columns →
  r !! column = None →
  ∃ t' items e',
    handle_record totals record t = (Ok totals, t') ∧
    submitted t' = submitted t ++ items ∧
    (length items <= i)%nat ∧
    printed t' = printed t ++ [ErrorInsertingRows (JStr key) e'] ∧
    fetched t' = fetched t ++ [(bucket, key)].
Proof.
  intros Hname Hext Hrows Hr Hcol Hnone.
  destruct (build_item_missing_column symbol timestamp i r column Hcol Hnone)
    as [e0 Hbuild].
  pose proof (built_stops symbol timestamp 0 rows i r e0 Hr Hbuild) as Hstop.
  pose proof (lookup_lt_Some _ _ _ Hr) as Hlt.
  rewrite (handle_record_file _ _ _ _ _ _ _ _ _ _ totals t Hname Hext Hrows).
  destruct (insert_file_trace put_raises flush_raises (JStr key) symbol timestamp
              rows totals
              (mkTrace (printed t) (fetched t ++ [(bucket, key)]) (submitted t)))
    as (n & line & totals' & Hres & Hp & Hf & Hs & Hcase).
  destruct (insert_file (JStr key) symbol timestamp rows totals _) as [o t'] eqn:Hrun.
  simpl in Hres, Hp, Hf, Hs. subst o.
  destruct Hcase as [(_ & _ & _ & Hlen)|[-> [e' ->]]]; [lia|].
  exists t', (take n (built symbol timestamp 0 rows)), e'.
  do 2 (split; [done|]). split; [rewrite length_take; lia|]. done.
Qed.

(** X7: no rollback.  With a table that takes every write, when the rows
    before position [i] all have an item and the row at [i] has none, exactly
    the [i] items of those rows have been handed over when the file fails,
    and the failure is logged with the exception of that row. *)
Theorem partial_writes_stand
    (record : json) (bucket key symbol timestamp : string) (rows : list row)
    (i : nat) (r : row) (e : exn) (totals : nat * nat) (t : trace) :
  accepting →
  names_object record bucket key →
  extract_symbol_timestamp key = Ok (symbol, timestamp) →
  s3_rows bucket key = Some rows →
  (∀ j rj, (j < i)%nat → rows !! j = Some rj →
           ∃ item, build_item symbol timestamp j rj = Ok item) →
  rows !! i = Some r →
  build_item symbol timestamp i r = Raise e →
  ∃ items,
    handle_record totals record t
    = (Ok totals,
       mkTrace (printed t ++ [ErrorInsertingRows (JStr key) e])
         (fetched t ++ [(bucket, key)]) (submitted t ++ items)) ∧
    length items = i ∧
    ∀ j item, items !! j = Some item →
      ∃ rj, rows !! j = Some rj ∧ build_item symbol timestamp j rj = Ok item.
Proof.
  intros [Hput Hflush] Hname Hext Hrows Hbefore Hr Hb.
  exists (built symbol timestamp 0 rows).
  rewrite (handle_record_file _ _ _ _ _ _ _ _ _ _ totals t Hname Hext Hrows).
  rewrite insert_file_unfold, (put_rows_stops _ _ _ 0 i r e); try done.
  simpl. rewrite Hflush, andb_false_r. split; [done|].
  split; [by apply (built_exact _ _ 0 _ _ r e)|].
  intros j item Hj. by apply built_lookup in Hj.
Qed.

(** X8: with a table that takes every write, a file that was fetched is
    counted exactly when every one of its rows has an item; it is then
    counted with all its rows, and otherwise leaves the counters alone.  In
    particular a file without rows counts as one file of zero rows. *)
Theorem file_counted_iff_rows_build
    (record : json) (bucket key symbol timestamp : string) (rows : list row)
    (totals : nat * nat) (t : trace) :
  accepting →
  names_object record bucket key →
  extract_symbol_timestamp key = Ok (symbol, timestamp) →
  s3_rows bucket key = Some rows →
  ((handle_record totals record t).1 = Ok (S totals.1, (totals.2 + length rows)%nat)
   ↔ ∀ i r, rows !! i = Some r →
            ∃ item, build_item symbol timestamp i r = Ok item)
  ∧ ((handle_record totals record t).1 = Ok (S totals.1, (totals.2 + length rows)%nat)
     ∨ (handle_record totals record t).1 = Ok totals)
  ∧ (rows = [] →
     (handle_record totals record t).1 = Ok (S totals.1, totals.2)).
Proof.
  intros [Hput Hflush] Hname Hext Hrows.
  rewrite (handle_record_file _ _ _ _ _ _ _ _ _ _ totals t Hname Hext Hrows).
  rewrite insert_file_unfold.
  destruct (put_rows symbol timestamp 0 rows _) as [o t1] eqn:Hrun.
  rewrite Hflush, andb_false_r. split; [|split].
  - split.
    + intros Hres. destruct o as [[]|e].
      * pose proof (put_rows_trace put_raises symbol timestamp rows 0
                      (mkTrace (printed t) (fetched t ++ [(bucket, key)]) (submitted t)))
          as (n & _ & _ & _ & Hok).
        rewrite Hrun in Hok. destruct (Hok eq_refl) as [_ Hlen].
        exact (proj1 (built_all _ _ 0 _) Hlen).
      * simpl in Hres. destruct totals as [f rw]. injection Hres as Hf _. lia.
    + intros Hall. rewrite (put_rows_all _ _ _ 0) in Hrun by done.
      by injection Hrun as <- <-.
  - destruct o; [by left|by right].
  - intros ->. simpl in Hrun. injection Hrun as <- <-. simpl.
    by rewrite Nat.add_0_r.
Qed.

(** X9: the closing flush decides.  With writes that go through and rows
    that all have an item, every item is handed over before the batch writer
    is closed.  A file without rows has nothing to flush and is counted; a
    file with rows is counted when the closing flush goes through, and when
    that flush raises the counters stay and the file is logged as failed,
    although one item per row has been handed over. *)
Theorem closing_flush_decides
    (record : json) (bucket key symbol timestamp : string) (rows : list row)
    (totals : nat * nat) (t : trace) :
  (∀ before item, put_raises before item = false) →
  names_object record bucket key →
  extract_symbol_timestamp key = Ok (symbol, timestamp) →
  s3_rows bucket key = Some rows →
  (∀ i r, rows !! i = Some r → ∃ item, build_item symbol timestamp i r = Ok item) →
  ∃ items,
    length items = length rows ∧
    handle_record totals record t
    = if match rows with
         | [] => false
         | _ :: _ => flush_raises (submitted t ++ items)
         end
      then
        (Ok totals,
         mkTrace (printed t ++ [ErrorInsertingRows (JStr key) ClientError])
           (fetched t ++ [(bucket, key)]) (submitted t ++ items))
      else
        (Ok (S totals.1, (totals.2 + length rows)%nat),
         mkTrace (printed t ++ [ProcessedFile (JStr key) (length rows)])
           (fetched t ++ [(bucket, key)]) (submitted t ++ items)).
Proof.
  intros Hput Hname Hext Hrows Hall.
  exists (built symbol timestamp 0 rows).
  pose proof (proj2 (built_all _ _ 0 _) Hall) as Hlen.
  split; [done|].
  rewrite (handle_record_file _ _ _ _ _ _ _ _ _ _ totals t Hname Hext Hrows).
  rewrite insert_file_unfold, (put_rows_all _ _ _ 0) by done.
  simpl. rewrite length_app, Hlen.
  destruct rows as [|r rows].
  - simpl. by rewrite Nat.add_0_r, Nat.ltb_irrefl.
  - replace (length (submitted t) <? length (submitted t) + length (r :: rows))%nat
      with true by (symmetry; apply Nat.ltb_lt; simpl; lia).
    simpl. by destruct (flush_raises _).
Qed.

(** X10: a sub-message whose object key has no slash is logged with the
    error of the extraction and skipped before anything is fetched or
    written; the counters stay and the rest of the batch is handled from
    there. *)
Theorem key_without_slash_is_skipped
    (record : json) (bucket key : string) (totals : nat * nat) (t : trace)
    (siblings : list json) :
  names_object record bucket key →
  PyStr.has_char "/" key = false →
  let t' := mkTrace
              (printed t ++ [ErrorExtractingKey (JStr key)
                               (ValueError ("Invalid S3 key format: " +:+ key))])
              (fetched t) (submitted t) in
  handle_record totals record t = (Ok totals, t') ∧
  handle_records totals (record :: siblings) t = handle_records totals siblings t'.
Proof.
  intros (s3_record & Hrec & Hbk) Hno t'.
  assert (handle_record totals record t = (Ok totals, t')) as Hrun.
  { rewrite handle_record_unfold, Hrec, Hbk. simpl extract_from.
    unfold extract_symbol_timestamp. by rewrite split_without_sep. }
  split; [done|]. simpl. by rewrite M_bind_unfold, Hrun.
Qed.

(** X11: a sub-message whose object cannot be read costs one fetch and one
    log line; nothing is written, the counters stay, and the rest of the
    batch is handled from there. *)
Theorem unreadable_object_is_skipped
    (record : json) (bucket key symbol timestamp : string) (totals : nat * nat)
    (t : trace) (siblings : list json) :
  names_object record bucket key →
  extract_symbol_timestamp key = Ok (symbol, timestamp) →
  s3_rows bucket key = None →
  let t' := mkTrace (printed t ++ [ErrorReadingCsv (JStr key) ClientError])
              (fetched t ++ [(bucket, key)]) (submitted t) in
  handle_record totals record t = (Ok totals, t') ∧
  handle_records totals (record :: siblings) t = handle_records totals siblings t'.
Proof.
  intros (s3_record & Hrec & Hbk) Hext Hnone t'.
  assert (handle_record totals record t = (Ok totals, t')) as Hrun.
  { rewrite handle_record_unfold, Hrec, Hbk. simpl extract_from. rewrite Hext.
    unfold process_csv. by rewrite Hnone. }
  split; [done|]. simpl. by rewrite M_bind_unfold, Hrun.
Qed.

Lemma getitem_raises v k e :
  getitem v k = Raise e → e = TypeError ∨ e = KeyError k.
Proof.
  destruct v as [| | | | |m]; simpl; try (intros [= <-]; by left).
  destruct (m !! k); [done|]. intros [= <-]. by right.
Qed.

Lemma bucket_and_key_raises s3_record e :
  bucket_and_key s3_record = Raise e →
  e = TypeError ∨ e = KeyError "bucket" ∨ e = KeyError "name"
  ∨ e = KeyError "object" ∨ e = KeyError "key".
Proof.
  unfold bucket_and_key. intros H.
  destruct (getitem s3_record "bucket") as [b|e1] eqn:H1.
  2: { rewrite outcome_bind_Raise in H. injection H as <-.
       destruct (getitem_raises _ _ _ H1) as [->| ->]; auto 6. }
  rewrite outcome_bind_Ok in H.
  destruct (getitem b "name") as [n|e2] eqn:H2.
  2: { rewrite outcome_bind_Raise in H. injection H as <-.
       destruct (getitem_raises _ _ _ H2) as [->| ->]; auto 6. }
  rewrite outcome_bind_Ok in H.
  destruct (getitem s3_record "object") as [o|e3] eqn:H3.
  2: { rewrite outcome_bind_Raise in H. injection H as <-.
       destruct (getitem_raises _ _ _ H3) as [->| ->]; auto 6. }
  rewrite outcome_bind_Ok in H.
  destruct (getitem o "key") as [k|e4] eqn:H4.
  2: { rewrite outcome_bind_Raise in H. injection H as <-.
       destruct (getitem_raises _ _ _ H4) as [->| ->]; auto 6. }
  by rewrite outcome_bind_Ok in H.
Qed.

(** The loop body raises only out of the two lookups between its [try]
    blocks. *)
Lemma handle_record_raises totals record e t t' :
  handle_record totals record t = (Raise e, t') →
  t' = t ∧
  ∃ s3_record, s3_record_of json_loads record = Ok s3_record ∧
               bucket_and_key s3_record = Raise e.
Proof.
  rewrite handle_record_unfold.
  destruct (s3_record_of json_loads record) as [s3_record|e0]; [|done].
  destruct (bucket_and_key s3_record) as [[bucket key]|e0] eqn:Hbk.
  2: { intros [= <- <-]. split; [done|]. by exists s3_record. }
  destruct (extract_from key) as [[symbol timestamp]|e0]; [|done].
  destruct (process_csv s3_rows bucket key t) as [[rows|e0] t1]; [|done].
  intros Hrun.
  destruct (insert_file_trace put_raises flush_raises key symbol timestamp rows totals t1)
    as (_ & _ & totals' & Hres & _).
  by rewrite Hrun in Hres.
Qed.

Lemma handle_records_raises totals records e t t' :
  handle_records totals records t = (Raise e, t') →
  ∃ record s3_record,
    record ∈ records ∧
    s3_record_of json_loads record = Ok s3_record ∧
    bucket_and_key s3_record = Raise e.
Proof.
  revert totals t. induction records as [|record records IH]; intros totals t; [done|].
  simpl. rewrite M_bind_unfold.
  destruct (handle_record totals record t) as [[totals1|e1] t1] eqn:Hrun.
  - intros H. destruct (IH _ _ H) as (r & s & Hin & Hs & Hbk).
    exists r, s. split; [by right|done].
  - intros [= <- <-]. apply handle_record_raises in Hrun as (_ & s & Hs & Hbk).
    exists record, s. split; [by left|done].
Qed.

(** What one sub-message adds: one log line; at most one file, and only
    after a fetch; no more rows than items handed over. *)
Lemma handle_record_accounts totals totals' record t t' :
  handle_record totals record t = (Ok totals', t') →
  length (printed t') = S (length (printed t)) ∧
  (totals.1 <= totals'.1 <= S totals.1)%nat ∧
  (length (fetched t) + (totals'.1 - totals.1) <= length (fetched t'))%nat ∧
  (totals.2 <= totals'.2)%nat ∧
  (length (submitted t) + (totals'.2 - totals.2) <= length (submitted t'))%nat.
Proof.
  rewrite handle_record_unfold.
  destruct (s3_record_of json_loads record) as [s3_record|e0].
  2: { intros [= <- <-]. simpl. rewrite length_app. simpl. lia. }
  destruct (bucket_and_key s3_record) as [[bucket key]|e0]; [|done].
  destruct (extract_from key) as [[symbol timestamp]|e0].
  2: { intros [= <- <-]. simpl. rewrite length_app. simpl. lia. }
  assert (length (fetched t)
          <= length (fetched (process_csv s3_rows bucket key t).2) ∧
          printed (process_csv s3_rows bucket key t).2 = printed t ∧
          submitted (process_csv s3_rows bucket key t).2 = submitted t ∧
          ((process_csv s3_rows bucket key t).1 ≠ Raise ClientError →
           length (fetched (process_csv s3_rows bucket key t).2)
           = S (length (fetched t))))%nat as Hfetch.
  { unfold process_csv, raise. destruct bucket, key; simpl; try (split; [lia|done]).
    destruct (s3_rows s s0); simpl; rewrite length_app; simpl;
      (split; [lia|]); (do 2 (split; [done|])); intros; lia. }
  destruct (process_csv s3_rows bucket key t) as [[rows|e0] t1]; simpl in Hfetch;
    destruct Hfetch as (Hle & Hp1 & Hs1 & Hone).
  2: { intros [= <- <-]. simpl. rewrite length_app, Hp1, Hs1. simpl. lia. }
  intros Hrun.
  destruct (insert_file_trace put_raises flush_raises key symbol timestamp rows totals t1)
    as (n & line & totals1 & Hres & Hp & Hf & Hs & Hcase).
  rewrite Hrun in Hres, Hp, Hf, Hs. simpl in Hres, Hp, Hf, Hs. injection Hres as <-.
  rewrite Hp, Hf, Hs, Hp1, Hs1, !length_app. simpl.
  specialize (Hone ltac:(done)).
  destruct Hcase as [(-> & _ & -> & Hlen)|[-> _]]; simpl; lia.
Qed.

Lemma handle_records_accounts totals totals' records t t' :
  handle_records totals records t = (Ok totals', t') →
  length (printed t') = (length (printed t) + length records)%nat ∧
  (totals.1 <= totals'.1 <= totals.1 + length records)%nat ∧
  (length (fetched t) + (totals'.1 - totals.1) <= length (fetched t'))%nat ∧
  (totals.2 <= totals'.2)%nat ∧
  (length (submitted t) + (totals'.2 - totals.2) <= length (submitted t'))%nat.
Proof.
  revert totals t. induction records as [|record records IH]; intros totals t.
  - intros [= <- <-]. simpl. lia.
  - simpl. rewrite M_bind_unfold.
    destruct (handle_record totals record t) as [[totals1|e1] t1] eqn:Hrun; [|done].
    intros Hrest. apply handle_record_accounts in Hrun. apply IH in Hrest. lia.
Qed.

(** X13: the summary never over-reports.  When the handler returns its
    summary for a [Records] list, the files it reports are no more than the
    sub-messages and no more than the objects fetched during the call, and
    the rows it reports are no more than the items handed to the table during
    the call. *)
Theorem summary_never_over_reports
    (event : gmap string json) (context : json) (records : list json)
    (resp : response) (t t' : trace) :
  event !! "Records" = Some (JArr records) →
  lambda_handler event context t = (Ok resp, t') →
  ∃ files rows,
    resp = mkResponse 200 (summary (files, rows)) ∧
    (files <= length records)%nat ∧
    (length (fetched t) + files <= length (fetched t'))%nat ∧
    (length (submitted t) + rows <= length (submitted t'))%nat.
Proof.
  intros Hrec. rewrite lambda_handler_unfold, Hrec. simpl.
  destruct (handle_records (0, 0)%nat records t) as [[[files rows]|e] t1] eqn:Hrun;
    [|done].
  intros [= <- <-]. exists files, rows. split; [done|].
  apply handle_records_accounts in Hrun. simpl in Hrun. lia.
Qed.

(** X14: every sub-message leaves exactly one line in the log.  When the
    handler returns for a [Records] list, it has printed as many lines as the
    list has sub-messages. *)
Theorem one_log_line_per_sub_message
    (event : gmap string json) (context : json) (records : list json)
    (resp : response) (t t' : trace) :
  event !! "Records" = Some (JArr records) →
  lambda_handler event context t = (Ok resp, t') →
  length (printed t') = (length (printed t) + length records)%nat.
Proof.
  intros Hrec. rewrite lambda_handler_unfold, Hrec. simpl.
  destruct (handle_records (0, 0)%nat records t) as [[totals|e] t1] eqn:Hrun; [|done].
  intros [= _ <-]. by apply handle_records_accounts in Hrun as [? _].
Qed.

(** With a table that takes every write, the run of a sub-message whose
    rows all have an item. *)
Lemma counted_file_run record bucket key symbol timestamp rows totals t :
  accepting →
  names_object record bucket key →
  extract_symbol_timestamp key = Ok (symbol, timestamp) →
  s3_rows bucket key = Some rows →
  (∀ i r, rows !! i = Some r → ∃ item, build_item symbol timestamp i r = Ok item) →
  handle_record totals record t
  = (Ok (S totals.1, (totals.2 + length rows)%nat),
     mkTrace (printed t ++ [ProcessedFile (JStr key) (length rows)])
       (fetched t ++ [(bucket, key)])
       (submitted t ++ built symbol timestamp 0 rows)).
Proof.
  intros [Hput Hflush] Hname Hext Hrows Hall.
  rewrite (handle_record_file _ _ _ _ _ _ _ _ _ _ totals t Hname Hext Hrows).
  rewrite insert_file_unfold, (put_rows_all _ _ _ 0) by done.
  simpl. by rewrite Hflush, andb_false_r.
Qed.

(** X15: no deduplication.  With a table that takes every write, two
    sub-messages of one batch that name the same object, all of whose rows
    have an item, are both processed: the object is fetched twice, its items
    are handed over twice in a row, and the file and its rows are counted
    twice. *)
Theorem redelivery_is_processed_again
    (record1 record2 : json) (bucket key symbol timestamp : string)
    (rows : list row) (totals : nat * nat) (t : trace) :
  accepting →
  names_object record1 bucket key →
  names_object record2 bucket key →
  extract_symbol_timestamp key = Ok (symbol, timestamp) →
  s3_rows bucket key = Some rows →
  (∀ i r, rows !! i = Some r → ∃ item, build_item symbol timestamp i r = Ok item) →
  ∃ items,
    length items = length rows ∧
    handle_records totals [record1; record2] t
    = (Ok (S (S totals.1), (totals.2 + length rows + length rows)%nat),
       mkTrace (printed t ++ [ProcessedFile (JStr key) (length rows);
                              ProcessedFile (JStr key) (length rows)])
         (fetched t ++ [(bucket, key); (bucket, key)])
         (submitted t ++ items ++ items)).
Proof.
  intros Hacc Hn1 Hn2 Hext Hrows Hall.
  exists (built symbol timestamp 0 rows).
  split; [exact (proj2 (built_all _ _ 0 _) Hall)|].
  simpl. rewrite M_bind_unfold.
  rewrite (counted_file_run _ _ _ _ _ _ totals t Hacc Hn1 Hext Hrows Hall).
  rewrite M_bind_unfold.
  rewrite (counted_file_run _ _ _ _ _ _ _ _ Hacc Hn2 Hext Hrows Hall).
  simpl. by rewrite <- !app_assoc.
Qed.

Lemma handle_record_of_str totals s t :
  handle_record totals (JStr s) t
  = (Ok totals, mkTrace (printed t ++ [ErrorParsingRecord TypeError])
                  (fetched t) (submitted t)).
Proof. by rewrite handle_record_unfold. Qed.

Lemma handle_records_of_chars totals s t :
  handle_records totals (chars s) t
  = (Ok totals,
     mkTrace (printed t
              ++ replicate (length (code_points s)) (ErrorParsingRecord TypeError))
       (fetched t) (submitted t)).
Proof.
  unfold chars. revert t. induction (code_points s) as [|c l IH]; intros t.
  - simpl. rewrite app_nil_r. by destruct t.
  - simpl. rewrite M_bind_unfold, handle_record_of_str, IH. simpl.
    by rewrite <- app_assoc.
Qed.

(** X16: a [Records] field that is not a list.  When it is [null], a
    boolean or a number the handler raises a [TypeError] instead of answering
    400; when it is a string the handler takes each character for a
    sub-message, logs a parse error for each, and answers 200 with 0 files
    and 0 rows. *)
Theorem records_that_is_no_list
    (event : gmap string json) (context : json) (v : json) (t : trace) :
  event !! "Records" = Some v →
  (v = JNull ∨ (∃ b, v = JBool b) ∨ (∃ lit, v = JNumber lit) →
   lambda_handler event context t = (Raise TypeError, t))
  ∧ (∀ s, v = JStr s →
     lambda_handler event context t
     = (Ok (mkResponse 200 "Processed 0 files with 0 rows into DynamoDB"),
        mkTrace (printed t
                 ++ replicate (length (code_points s)) (ErrorParsingRecord TypeError))
          (fetched t) (submitted t))).
Proof.
  intros Hrec. rewrite lambda_handler_unfold, Hrec. split.
  - by intros [->|[[b ->]|[lit ->]]].
  - intros s ->. simpl. by rewrite handle_records_of_chars.
Qed.

End HandlerMore.

(** ** Prices *)

Lemma digit_facts a :
  Lex.is_digit a = true →
  Lex.is_space a = false ∧ Ascii.eqb a "_" = false ∧ Lex.lower a = a ∧
  Lex.sign (String a EmptyString) = (false, String a EmptyString) ∧
  Ascii.eqb a "i" = false.
Proof.
  destruct a as [[] [] [] [] [] [] [] []]; vm_compute; try done; by intros _.
Qed.

Lemma point_facts :
  Lex.is_space "." = false ∧ Ascii.eqb "." "_" = false ∧ Lex.lower "." = "."%char ∧
  Lex.is_digit "." = false.
Proof. done. Qed.

Lemma plain_facts a :
  plain a = true →
  Lex.is_space a = false ∧ Ascii.eqb a "_" = false ∧ Lex.lower a = a.
Proof.
  unfold plain. intros [H|H%Ascii.eqb_eq]%orb_true_iff.
  - by destruct (digit_facts a H) as (? & ? & ? & _).
  - by subst.
Qed.

Lemma all_plain_normal s :
  all_plain s = true →
  Lex.lstrip s = s ∧ Lex.rstrip s = s ∧ Lex.drop_underscores s = s ∧
  Lex.lowercase s = s.
Proof.
  induction s as [|a s IH]; [done|]. simpl.
  intros [Ha Hs]%andb_true_iff. destruct (plain_facts a Ha) as (Hsp & Hus & Hlo).
  destruct (IH Hs) as (_ & Hr & Hd & Hl).
  rewrite Hsp, Hus, Hr, Hd, Hl, Hlo. by destruct s.
Qed.

Lemma all_plain_app s1 s2 :
  all_plain (s1 +:+ s2) = all_plain s1 && all_plain s2.
Proof.
  induction s1 as [|a s1 IH]; [done|]. rewrite app_cons. simpl.
  by rewrite IH, andb_assoc.
Qed.

Lemma all_digits_plain s : all_digits s = true → all_plain s = true.
Proof.
  induction s as [|a s IH]; [done|]. simpl. intros [Ha Hs]%andb_true_iff.
  unfold plain. by rewrite Ha, IH.
Qed.

Lemma span_digits_app ds rest :
  all_digits ds = true →
  (∀ a r, rest = String a r → Lex.is_digit a = false) →
  Lex.span_digits (ds +:+ rest) = (ds, rest).
Proof.
  induction ds as [|a ds IH]; intros Hds Hrest.
  - rewrite app_empty. destruct rest as [|a r]; [done|].
    simpl. by rewrite (Hrest a r eq_refl).
  - rewrite app_cons. simpl in *. apply andb_true_iff in Hds as [-> Hds].
    by rewrite (IH Hds Hrest).
Qed.

Lemma span_digits_all ds :
  all_digits ds = true → Lex.span_digits ds = (ds, EmptyString).
Proof.
  induction ds as [|a ds IH]; [done|]. simpl.
  intros [-> Hds]%andb_true_iff. by rewrite (IH Hds).
Qed.

Lemma sign_digit a r :
  Lex.is_digit a = true → Lex.sign (String a r) = (false, String a r).
Proof. destruct a as [[] [] [] [] [] [] [] []]; vm_compute; done. Qed.

Lemma digit_is_not_inf a r :
  Lex.is_digit a = true →
  String.eqb (String a r) "inf" || String.eqb (String a r) "infinity" = false.
Proof.
  intros Ha. destruct (digit_facts a Ha) as (_ & _ & _ & _ & Hi).
  simpl. by rewrite Hi.
Qed.

Lemma plain_is_ascii a :
  plain a = true →
  (nat_of_ascii a <? 128)%nat = true ∧ Ascii.eqb a "e" || Ascii.eqb a "E" = false.
Proof. destruct a as [[] [] [] [] [] [] [] []]; vm_compute; done. Qed.

Lemma all_plain_ascii s :
  all_plain s = true → is_ascii s = true ∧ has_exponent s = false.
Proof.
  induction s as [|a s IH]; [done|]. simpl. intros [Ha Hs]%andb_true_iff.
  destruct (plain_is_ascii a Ha) as [-> ->]. by destruct (IH Hs) as [-> ->].
Qed.

(** The grammar on a signed plain decimal: digits, and perhaps a point and
    more digits. *)
Lemma Decimal_of_ascii_plain (negative : bool) (a : ascii) (rest : string) :
  Lex.is_digit a = true →
  all_plain (String a rest) = true →
  Decimal_of_ascii (minus negative +:+ String a rest)
  = match decimal_number negative (String a rest) with
    | Some d => Ok d
    | None =>
        match decimal_nan negative (String a rest) with
        | Some d => Ok d
        | None => Raise InvalidOperation
        end
    end.
Proof.
  intros Ha Hs.
  destruct (all_plain_normal _ Hs) as (Hl & Hr & Hd & Hlo).
  assert (Lex.sign (Lex.lowercase (Lex.drop_underscores
            (Lex.strip (minus negative +:+ String a rest))))
          = (negative, String a rest)) as Hsign.
  { unfold Lex.strip. destruct negative; unfold minus.
    - change ("-" +:+ String a rest) with (String "-" (String a rest)).
      change (Lex.lstrip (String "-" (String a rest)))
        with (String "-" (String a rest)).
      assert (Lex.rstrip (String "-" (String a rest)) = String "-" (String a rest))
        as ->.
      { change (Lex.rstrip (String "-" (String a rest)))
          with (match Lex.rstrip (String a rest) with
                | EmptyString => String "-" EmptyString
                | String b t => String "-" (String b t)
                end).
        by rewrite Hr. }
      change (Lex.drop_underscores (String "-" (String a rest)))
        with (String "-" (Lex.drop_underscores (String a rest))).
      rewrite Hd.
      change (Lex.lowercase (String "-" (String a rest)))
        with (String "-" (Lex.lowercase (String a rest))).
      by rewrite Hlo.
    - by rewrite app_empty, Hl, Hr, Hd, Hlo, (sign_digit a _ Ha). }
  unfold Decimal_of_ascii. rewrite Hsign.
  by rewrite (digit_is_not_inf a _ Ha).
Qed.

Lemma minus_ascii negative s :
  is_ascii (minus negative +:+ s) = is_ascii s ∧
  has_exponent (minus negative +:+ s) = has_exponent s.
Proof. by destruct negative. Qed.

(** A signed plain decimal is stored digit for digit. *)
Lemma plain_decimal_exact (negative : bool) (ip fp : string) :
  ip ≠ EmptyString →
  all_digits ip = true →
  all_digits fp = true →
  safe_decimal (Some (minus negative +:+ ip +:+ "." +:+ fp))
  = Ok (Finite negative (Lex.digits_value 0 (ip +:+ fp))
          (- Z.of_nat (String.length fp)))
  ∧ safe_decimal (Some (minus negative +:+ ip))
    = Ok (Finite negative (Lex.digits_value 0 ip) 0).
Proof.
  intros Hne Hip Hfp.
  destruct ip as [|a ip]; [done|]. clear Hne.
  pose proof Hip as Hip'. simpl in Hip'. apply andb_true_iff in Hip' as [Ha _].
  assert (all_plain (String a ip +:+ String "." fp) = true) as Hplain.
  { rewrite all_plain_app, (all_digits_plain _ Hip). simpl.
    by rewrite (all_digits_plain _ Hfp). }
  split.
  - unfold safe_decimal, Decimal_of_str, py_str.
    change ("." +:+ fp) with (String "." fp).
    destruct (minus_ascii negative (String a ip +:+ String "." fp)) as [-> ->].
    destruct (all_plain_ascii _ Hplain) as [-> ->].
    rewrite app_cons in *. rewrite (Decimal_of_ascii_plain negative a _ Ha Hplain).
    unfold decimal_number. rewrite <- app_cons.
    rewrite (span_digits_app (String a ip) (String "." fp) Hip)
      by (by intros ? ? [= <- _]).
    rewrite (span_digits_all fp Hfp). rewrite app_cons. simpl decimal_exponent.
    by rewrite <- app_cons.
  - unfold safe_decimal, Decimal_of_str, py_str.
    destruct (minus_ascii negative (String a ip)) as [-> ->].
    destruct (all_plain_ascii _ (all_digits_plain _ Hip)) as [-> ->].
    rewrite (Decimal_of_ascii_plain negative a _ Ha (all_digits_plain _ Hip)).
    unfold decimal_number. rewrite (span_digits_all _ Hip).
    by rewrite str_app_empty_r.
Qed.

(** X17: a plain price is stored digit for digit.  For a non-empty string of
    digits [ip] and a string of digits [fp], the text [ip.fp] becomes the
    decimal whose coefficient is the digits of [ip] followed by those of [fp]
    and whose exponent is minus the number of digits of [fp]; nothing is
    rounded and trailing zeros are kept.  The text [ip] alone becomes the
    integer it spells, with exponent zero. *)
Theorem plain_price_is_stored_exactly (ip fp : string) :
  ip ≠ EmptyString →
  all_digits ip = true →
  all_digits fp = true →
  safe_decimal (Some (ip +:+ "." +:+ fp))
  = Ok (Finite false (Lex.digits_value 0 (ip +:+ fp)) (- Z.of_nat (String.length fp)))
  ∧ safe_decimal (Some ip) = Ok (Finite false (Lex.digits_value 0 ip) 0).
Proof. apply (plain_decimal_exact false). Qed.

(** C6: [safe_decimal] returns on every value, never raising: the decimal
    that [Decimal] reads from the value's string form when it reads one, and
    decimal zero when [Decimal] raises.  What it reads is exact: a signed
    plain decimal, however many digits it has, is stored with all its digits
    as coefficient and the number of digits after the point as negated
    exponent, nothing being rounded.  [12.5] gives 12.5, [abc] and the empty
    string give 0. *)
Theorem safe_decimal_total (value : cell) :
  (∃ d, safe_decimal value = Ok d ∧
        match Decimal_of_str (py_str value) with
        | Ok parsed => d = parsed
        | Raise _ => d = Decimal_zero
        end)
  ∧ (∀ (negative : bool) (ip fp : string),
       ip ≠ EmptyString → all_digits ip = true → all_digits fp = true →
       safe_decimal (Some (minus negative +:+ ip +:+ "." +:+ fp))
       = Ok (Finite negative (Lex.digits_value 0 (ip +:+ fp))
               (- Z.of_nat (String.length fp)))
       ∧ safe_decimal (Some (minus negative +:+ ip))
         = Ok (Finite negative (Lex.digits_value 0 ip) 0))
  ∧ safe_decimal (Some "12.5") = Ok (Finite false 125 (-1))
  ∧ safe_decimal (Some "abc") = Ok Decimal_zero
  ∧ safe_decimal (Some "") = Ok Decimal_zero.
Proof.
  split; [|split; [apply plain_decimal_exact|by repeat split]].
  unfold safe_decimal. destruct (Decimal_of_str (py_str value)) as [d|e].
  - by exists d.
  - by exists Decimal_zero.
Qed.

(** ** Order and shape of what the handler does *)

Lemma key_with_slash_extracts key :
  PyStr.has_char "/" key = true →
  ∃ symbol timestamp, extract_symbol_timestamp key = Ok (symbol, timestamp).
Proof.
  intros Hslash. unfold extract_symbol_timestamp.
  pose proof (split_nonempty "/" key) as Hne.
  pose proof (split_length_one "/" key) as Hone.
  destruct (Nat.ltb_spec (length (PyStr.split "/" key)) 2) as [Hlt|Hge]; [|eauto].
  destruct (PyStr.split "/" key) as [|p [|q ps]]; simpl in *; [done| |lia].
  destruct Hone as [Hone _]. rewrite Hone in Hslash; done.
Qed.

Lemma built_well_keyed key symbol timestamp idx rows :
  extract_symbol_timestamp key = Ok (symbol, timestamp) →
  Forall well_keyed (built symbol timestamp idx rows).
Proof.
  intros Hext. destruct (extract_clean _ _ _ Hext) as (Hs & Ht & Htd).
  apply Forall_lookup. intros i item Hi.
  destruct (built_lookup _ _ _ _ _ _ Hi) as (r & _ & Hb).
  apply build_item_iff in Hb as (d & o & c & h & l & v & n & _ & _ & _ & _ & _ & _ & _ & ->).
  unfold well_keyed. simpl. repeat split; try done. by exists (idx + i)%nat.
Qed.

Section HandlerShape.

Variable json_loads : string → option json.
Variable s3_rows : string → string → option (list row).
Variable put_raises : list Item → Item → bool.
Variable flush_raises : list Item → bool.

Local Abbreviation handle_record :=
  (handle_record Decimal_beyond int_of_str json_loads s3_rows put_raises flush_raises).
Local Abbreviation handle_records :=
  (handle_records Decimal_beyond int_of_str json_loads s3_rows put_raises flush_raises).
Local Abbreviation lambda_handler :=
  (lambda_handler Decimal_beyond int_of_str json_loads s3_rows put_raises flush_raises).
Local Abbreviation names_object := (names_object json_loads).
Local Abbreviation record_items :=
  (record_items Decimal_beyond int_of_str json_loads s3_rows).

Lemma record_items_well_keyed record : Forall well_keyed (record_items record).
Proof.
  unfold record_items.
  destruct (s3_record_of json_loads record) as [s3_record|e]; [|done].
  destruct (bucket_and_key s3_record) as [[bucket key]|e]; [|done].
  destruct bucket as [| | |bucket| |]; try done.
  destruct key as [| | |key| |]; try done.
  destruct (extract_symbol_timestamp key) as [[symbol timestamp]|e] eqn:Hext; [|done].
  destruct (s3_rows bucket key) as [rows|]; [|done].
  by apply (built_well_keyed key).
Qed.

Lemma handle_records_items totals records t :
  ∃ items,
    submitted (handle_records totals records t).2 = submitted t ++ items ∧
    Forall well_keyed items.
Proof.
  revert totals t. induction records as [|record records IH]; intros totals t.
  - exists []. simpl. by rewrite app_nil_r.
  - simpl. rewrite M_bind_unfold.
    destruct (handle_record_submitted json_loads s3_rows put_raises flush_raises
                totals record t) as (n & Hs & _).
    destruct (handle_record totals record t) as [[totals1|e1] t1]; simpl in Hs.
    + destruct (IH totals1 t1) as (items & Hs' & Hall).
      exists (take n (record_items record) ++ items).
      rewrite Hs', Hs, <- app_assoc. split; [done|].
      apply Forall_app. split; [|done].
      apply Forall_take, record_items_well_keyed.
    + exists (take n (record_items record)). split; [done|].
      apply Forall_take, record_items_well_keyed.
Qed.

(** X18: whatever the handler does, and whether it returns or raises, every
    item it hands to the table has a partition key made of the item's own
    symbol and timestamp attributes, a symbol without slash, a timestamp
    without slash or dot, and a sort key made of the item's date and a row
    position. *)
Theorem submitted_items_are_well_keyed
    (event : gmap string json) (context : json) (t : trace) :
  ∃ items,
    submitted (lambda_handler event context t).2 = submitted t ++ items ∧
    Forall well_keyed items.
Proof.
  rewrite lambda_handler_unfold.
  destruct (event !! "Records") as [v|]; [|exists []; simpl; by rewrite app_nil_r].
  destruct (py_iter v) as [records|e]; [|exists []; simpl; by rewrite app_nil_r].
  destruct (handle_records_items (0, 0)%nat records t) as (items & Hs & Hall).
  exists items. split; [|done].
  by destruct (handle_records (0, 0)%nat records t) as [[totals|e] t1].
Qed.

(** A sub-message that names an object under a key with a slash always
    returns, after asking the store for that object and no other. *)
Lemma handle_record_fetches_named totals record bucket key t :
  names_object record bucket key →
  PyStr.has_char "/" key = true →
  ∃ totals' t',
    handle_record totals record t = (Ok totals', t') ∧
    fetched t' = fetched t ++ [(bucket, key)].
Proof.
  intros (s3_record & Hrec & Hbk) Hslash.
  destruct (key_with_slash_extracts key Hslash) as (symbol & timestamp & Hext).
  rewrite handle_record_unfold, Hrec, Hbk. simpl extract_from. rewrite Hext.
  unfold process_csv. destruct (s3_rows bucket key) as [rows|].
  - destruct (insert_file_trace put_raises flush_raises (JStr key) symbol timestamp
                rows totals
                (mkTrace (printed t) (fetched t ++ [(bucket, key)]) (submitted t)))
      as (_ & _ & totals' & Hres & _ & Hf & _).
    destruct (insert_file _ _ _ _ _ _ _ _) as [o t']. simpl in *. subst o.
    by exists totals', t'.
  - by eexists _, _.
Qed.

(** X19: objects are asked for in the order of the batch.  When every
    sub-message of a list names an object under a key that has a slash, the
    loop returns, and the objects it has fetched are exactly those objects, one
    fetch per sub-message, in the order of the list, whether or not each file
    could be read or inserted. *)
Theorem objects_are_fetched_in_batch_order
    (records : list json) (objects : list (string * string))
    (totals : nat * nat) (t : trace) :
  Forall2 (λ record object,
             names_object record object.1 object.2 ∧
             PyStr.has_char "/" object.2 = true) records objects →
  ∃ totals' t',
    handle_records totals records t = (Ok totals', t') ∧
    fetched t' = fetched t ++ objects.
Proof.
  intros Hall. revert totals t.
  induction Hall as [|record [bucket key] records objects [Hname Hslash] _ IH];
    intros totals t.
  - exists totals, t. by rewrite app_nil_r.
  - destruct (handle_record_fetches_named totals record bucket key t Hname Hslash)
      as (totals1 & t1 & Hrun & Hf).
    destruct (IH totals1 t1) as (totals' & t' & Hrest & Hf').
    exists totals', t'. simpl. rewrite M_bind_unfold, Hrun, Hrest.
    split; [done|]. by rewrite Hf', Hf, <- app_assoc.
Qed.

End HandlerShape.

End WithInterpreter.

(** * The properties at work *)

(** ** The handler on the scenario *)

Lemma names_lyft : names_object Scenario.json_loads
                     (Scenario.sqs_record Scenario.body_lyft) "market" Scenario.lyft_key.
Proof.
  exists (JObj (<[ "bucket" := JObj {[ "name" := JStr "market" ]} ]>
                  {[ "object" := JObj {[ "key" := JStr Scenario.lyft_key ]} ]})).
  split; vm_compute; reflexivity.
Defined.

Lemma names_uber : names_object Scenario.json_loads
                     (Scenario.sqs_record Scenario.body_uber) "market" Scenario.uber_key.
Proof.
  exists (JObj (<[ "bucket" := JObj {[ "name" := JStr "market" ]} ]>
                  {[ "object" := JObj {[ "key" := JStr Scenario.uber_key ]} ]})).
  split; vm_compute; reflexivity.
Defined.

(** C1: a sub-message whose body decodes to a nested record without bucket
    is not logged and skipped: the [KeyError] of the lookup leaves the
    handler, no summary is returned, and the sub-messages after it are never
    looked at. *)
Theorem missing_bucket_escapes_handler :
  Scenario.run [Scenario.body_no_bucket] = (Raise (KeyError "bucket"), empty_trace)
  ∧ ∃ t, Scenario.run [Scenario.body_lyft; Scenario.body_no_bucket; Scenario.body_lyft]
         = (Raise (KeyError "bucket"), t)
         ∧ printed t = [ProcessedFile (JStr Scenario.lyft_key) 3]
         ∧ fetched t = [("market", Scenario.lyft_key)]
         ∧ length (submitted t) = 3%nat.
Proof.
  split; [vm_compute; reflexivity|].
  eexists. split; [vm_compute; reflexivity|]. by repeat split.
Qed.

Lemma bad_volume_abandons_file_witness :
  ∃ t' items e',
    Scenario.run_record (4, 20)%nat Scenario.body_uber empty_trace = (Ok (4, 20)%nat, t') ∧
    submitted t' = submitted empty_trace ++ items ∧
    (length items <= 1)%nat ∧
    (∀ j item, items !! j = Some item →
       ∃ rj, Scenario.uber_rows !! j = Some rj ∧
             build_item Scenario.decimal_beyond Scenario.int_of "UBER" "2025-11-17_15-26-55" j rj = Ok item) ∧
    printed t' = printed empty_trace ++ [ErrorInsertingRows (JStr Scenario.uber_key) e'] ∧
    (∀ before totals0 t0 siblings,
       handle_records Scenario.decimal_beyond Scenario.int_of Scenario.json_loads Scenario.s3_rows Scenario.put_ok Scenario.flush_ok
         totals0 before t0 = (Ok (4, 20)%nat, empty_trace) →
       handle_records Scenario.decimal_beyond Scenario.int_of Scenario.json_loads Scenario.s3_rows Scenario.put_ok Scenario.flush_ok
         totals0 (before ++ Scenario.sqs_record Scenario.body_uber :: siblings) t0
       = handle_records Scenario.decimal_beyond Scenario.int_of Scenario.json_loads Scenario.s3_rows Scenario.put_ok Scenario.flush_ok
           (4, 20)%nat siblings t').
Proof.
  apply (bad_volume_abandons_file Scenario.decimal_beyond Scenario.int_of Scenario.json_loads Scenario.s3_rows
           Scenario.put_ok Scenario.flush_ok
           (Scenario.sqs_record Scenario.body_uber) "market" Scenario.uber_key
           "UBER" "2025-11-17_15-26-55" Scenario.uber_rows 1 Scenario.bad_bar
           (Some "not-a-number") (ValueError "invalid literal for int() with base 10")).
  - exact names_uber.
  - reflexivity.
  - reflexivity.
  - reflexivity.
  - vm_compute; reflexivity.
  - reflexivity.
Defined.

Example bad_file_not_counted :
  (Scenario.run [Scenario.body_uber; Scenario.body_lyft]).1
  = Ok (mkResponse 200 "Processed 1 files with 3 rows into DynamoDB").
Proof. vm_compute. reflexivity. Qed.

Lemma lambda_handler_responses_witness :
  Scenario.run [] = (Ok (mkResponse 200 "Processed 0 files with 0 rows into DynamoDB"),
                     empty_trace)
  ∧ ∃ records lines,
      py_iter (JArr (Scenario.sqs_record <$> [Scenario.body_uber; Scenario.body_lyft]))
      = Ok records ∧
      handle_records Scenario.decimal_beyond Scenario.int_of
        Scenario.json_loads Scenario.s3_rows Scenario.put_ok Scenario.flush_ok
        (0, 0)%nat records empty_trace
      = (Ok (files_logged lines, rows_logged lines),
         (Scenario.run [Scenario.body_uber; Scenario.body_lyft]).2) ∧
      printed (Scenario.run [Scenario.body_uber; Scenario.body_lyft]).2
      = printed empty_trace ++ lines ∧
      mkResponse 200 "Processed 1 files with 3 rows into DynamoDB"
      = mkResponse 200
          ("Processed " +:+ PyStr.of_nat (files_logged lines) +:+ " files with "
           +:+ PyStr.of_nat (rows_logged lines) +:+ " rows into DynamoDB").
Proof.
  split.
  - apply (lambda_handler_responses Scenario.decimal_beyond Scenario.int_of
             Scenario.json_loads Scenario.s3_rows
             Scenario.put_ok Scenario.flush_ok (Scenario.event []) JNull empty_trace).
    vm_compute; reflexivity.
  - apply (proj2 (proj2 (proj2 (proj2
             (lambda_handler_responses Scenario.decimal_beyond Scenario.int_of
                Scenario.json_loads Scenario.s3_rows Scenario.put_ok Scenario.flush_ok
                (Scenario.event [Scenario.body_uber; Scenario.body_lyft]) JNull
                empty_trace))))).
    + vm_compute; reflexivity.
    + unfold Scenario.run.
      destruct (lambda_handler _ _ _ _ _ _ _ _ _) as [o t'] eqn:Hrun.
      vm_compute in Hrun. by injection Hrun as <- <-.
Defined.

Lemma processed_file_upserts_witness :
  3%nat = (0 + length Scenario.lyft_rows)%nat ∧
  ∃ items,
    submitted (Scenario.run_record (0, 0)%nat Scenario.body_lyft empty_trace).2
    = submitted empty_trace ++ items ∧
    length items = length Scenario.lyft_rows ∧
    ∀ i r, Scenario.lyft_rows !! i = Some r →
      ∃ item date,
        items !! i = Some item ∧
        r !! "date" = Some date ∧
        symbol_timestamp item = "LYFT" +:+ "_" +:+ "2025-11-17_15-26-55" ∧
        row_key item = py_str date +:+ "_" +:+ PyStr.of_nat i.
Proof.
  apply (processed_file_upserts Scenario.decimal_beyond Scenario.int_of Scenario.json_loads Scenario.s3_rows
           Scenario.put_ok Scenario.flush_ok
           (Scenario.sqs_record Scenario.body_lyft) "market" Scenario.lyft_key
           "LYFT" "2025-11-17_15-26-55" Scenario.lyft_rows (0, 0)%nat 3 empty_trace).
  - exact names_lyft.
  - reflexivity.
  - reflexivity.
  - unfold Scenario.run_record.
    destruct (handle_record _ _ _ _ _ _ _ _ _) as [o t'] eqn:Hrun.
    vm_compute in Hrun. by injection Hrun as <- <-.
Defined.

Example three_rows_three_sort_keys :
  (λ item, (symbol_timestamp item, row_key item))
    <$> submitted (Scenario.run [Scenario.body_lyft]).2
  = [("LYFT_2025-11-17_15-26-55", "2025-11-14_0");
     ("LYFT_2025-11-17_15-26-55", "2025-11-15_1");
     ("LYFT_2025-11-17_15-26-55", "2025-11-16_2")].
Proof. vm_compute. reflexivity. Qed.

Lemma only_first_nested_record_witness :
  s3_record_of Scenario.json_loads (Scenario.sqs_record Scenario.body_lyft_uber)
  = getitem (Scenario.s3_value "market" Scenario.lyft_key) "s3" ∧
  Scenario.run_record (0, 0)%nat Scenario.body_lyft_uber empty_trace
  = Scenario.run_record (0, 0)%nat Scenario.body_lyft empty_trace ∧
  (fetched (Scenario.run_record (0, 0)%nat Scenario.body_lyft_uber empty_trace).2
   = fetched empty_trace
   ∨ ∃ s3_record bucket key,
       getitem (Scenario.s3_value "market" Scenario.lyft_key) "s3" = Ok s3_record ∧
       bucket_and_key s3_record = Ok (JStr bucket, JStr key) ∧
       fetched (Scenario.run_record (0, 0)%nat Scenario.body_lyft_uber empty_trace).2
       = fetched empty_trace ++ [(bucket, key)]).
Proof.
  apply (only_first_nested_record Scenario.decimal_beyond Scenario.int_of Scenario.json_loads Scenario.s3_rows
           Scenario.put_ok Scenario.flush_ok
           (Scenario.sqs_record Scenario.body_lyft_uber)
           (Scenario.sqs_record Scenario.body_lyft)
           Scenario.body_lyft_uber Scenario.body_lyft
           {[ "Records" := JArr [Scenario.s3_value "market" Scenario.lyft_key;
                                 Scenario.s3_value "market" Scenario.uber_key] ]}
           {[ "Records" := JArr [Scenario.s3_value "market" Scenario.lyft_key] ]}
           (Scenario.s3_value "market" Scenario.lyft_key)
           [Scenario.s3_value "market" Scenario.uber_key] []).
  all: vm_compute; reflexivity.
Defined.

Lemma row_keys_differ_across_rows_witness :
  row_key (mkItem "LYFT_2025" "2025-11-14_1_0" "LYFT" "2025" (Some "2025-11-14_1")
             (Finite false 1 0) (Finite false 1 0) (Finite false 1 0)
             (Finite false 1 0) 1)
  ≠ row_key (mkItem "LYFT_2025" "2025-11-14_1" "LYFT" "2025" (Some "2025-11-14")
               (Finite false 1 0) (Finite false 1 0) (Finite false 1 0)
               (Finite false 1 0) 1).
Proof.
  apply (row_keys_differ_across_rows Scenario.decimal_beyond Scenario.int_of
           "LYFT" "2025" "LYFT" "2025" 0 1
           (Scenario.bar "2025-11-14_1" "1" "1" "1" "1" "1")
           (Scenario.bar "2025-11-14" "1" "1" "1" "1" "1")).
  - vm_compute; reflexivity.
  - vm_compute; reflexivity.
  - lia.
Defined.


(** ** The further properties on the bucket *)

Lemma names_bucket_object key :
  key ∈ Bucket.keys → names_object Bucket.json_loads (Bucket.record_of key) "market" key.
Proof.
  intros Hkey.
  exists (JObj (<[ "bucket" := JObj {[ "name" := JStr "market" ]} ]>
                  {[ "object" := JObj {[ "key" := JStr key ]} ]})).
  unfold Bucket.keys in Hkey.
  repeat (apply elem_of_cons in Hkey as [->|Hkey]; [split; vm_compute; reflexivity|]).
  by apply elem_of_nil in Hkey.
Qed.

Lemma accepting_table : accepting Scenario.put_ok Scenario.flush_ok.
Proof. by split. Qed.


Lemma lyft_rows_all_build :
  ∀ i r, Scenario.lyft_rows !! i = Some r →
         ∃ item, build_item Scenario.decimal_beyond Scenario.int_of "LYFT" "2025-11-17_15-26-55" i r = Ok item.
Proof.
  apply (proj1 (built_all Scenario.decimal_beyond Scenario.int_of "LYFT" "2025-11-17_15-26-55" 0 Scenario.lyft_rows)).
  vm_compute. reflexivity.
Qed.

Lemma missing_column_abandons_file_witness :
  ∃ t' items e',
    Bucket.run_record (2, 7)%nat Bucket.snap_key empty_trace = (Ok (2, 7)%nat, t') ∧
    submitted t' = submitted empty_trace ++ items ∧
    (length items <= 0)%nat ∧
    printed t' = printed empty_trace ++ [ErrorInsertingRows (JStr Bucket.snap_key) e'] ∧
    fetched t' = fetched empty_trace ++ [("market", Bucket.snap_key)].
Proof.
  apply (missing_column_abandons_file Scenario.decimal_beyond Scenario.int_of Bucket.json_loads Bucket.s3_rows
           Scenario.put_ok Scenario.flush_ok (Bucket.record_of Bucket.snap_key)
           "market" Bucket.snap_key "SNAP" "2025-11-17_15-26-55" Bucket.snap_rows 0
           (Bucket.bar_without_low "2025-11-14" "9.1" "9.3" "9.4" "700") "low").
  - apply names_bucket_object. by repeat constructor.
  - reflexivity.
  - reflexivity.
  - reflexivity.
  - by repeat constructor.
  - vm_compute; reflexivity.
Defined.

Lemma partial_writes_stand_witness :
  ∃ items,
    Bucket.run_record (0, 0)%nat Scenario.uber_key empty_trace
    = (Ok (0, 0)%nat,
       mkTrace (printed empty_trace
                ++ [ErrorInsertingRows (JStr Scenario.uber_key)
                      (ValueError "invalid literal for int() with base 10")])
         (fetched empty_trace ++ [("market", Scenario.uber_key)])
         (submitted empty_trace ++ items)) ∧
    length items = 1%nat ∧
    ∀ j item, items !! j = Some item →
      ∃ rj, Scenario.uber_rows !! j = Some rj ∧
            build_item Scenario.decimal_beyond Scenario.int_of "UBER" "2025-11-17_15-26-55" j rj = Ok item.
Proof.
  apply (partial_writes_stand Scenario.decimal_beyond Scenario.int_of Bucket.json_loads Bucket.s3_rows
           Scenario.put_ok Scenario.flush_ok (Bucket.record_of Scenario.uber_key)
           "market" Scenario.uber_key "UBER" "2025-11-17_15-26-55" Scenario.uber_rows 1
           Scenario.bad_bar (ValueError "invalid literal for int() with base 10")).
  - exact accepting_table.
  - apply names_bucket_object. by repeat constructor.
  - reflexivity.
  - reflexivity.
  - intros [|j] rj Hj Hr; [|lia]. injection Hr as <-.
    destruct (build_item _ _ _ _ _ _) as [item|e] eqn:Hb; [by exists item|].
    vm_compute in Hb. done.
  - reflexivity.
  - vm_compute; reflexivity.
Defined.

Lemma file_counted_iff_rows_build_witness :
  ((Bucket.run_record (0, 0)%nat Scenario.lyft_key empty_trace).1
   = Ok (1, 0 + length Scenario.lyft_rows)%nat
   ↔ ∀ i r, Scenario.lyft_rows !! i = Some r →
            ∃ item, build_item Scenario.decimal_beyond Scenario.int_of "LYFT" "2025-11-17_15-26-55" i r = Ok item)
  ∧ ((Bucket.run_record (0, 0)%nat Scenario.lyft_key empty_trace).1
     = Ok (1, 0 + length Scenario.lyft_rows)%nat
     ∨ (Bucket.run_record (0, 0)%nat Scenario.lyft_key empty_trace).1 = Ok (0, 0)%nat)
  ∧ (Scenario.lyft_rows = [] →
     (Bucket.run_record (0, 0)%nat Scenario.lyft_key empty_trace).1 = Ok (1, 0)%nat).
Proof.
  apply (file_counted_iff_rows_build Scenario.decimal_beyond Scenario.int_of Bucket.json_loads Bucket.s3_rows
           Scenario.put_ok Scenario.flush_ok (Bucket.record_of Scenario.lyft_key)
           "market" Scenario.lyft_key "LYFT" "2025-11-17_15-26-55" Scenario.lyft_rows
           (0, 0)%nat empty_trace).
  - exact accepting_table.
  - apply names_bucket_object. by repeat constructor.
  - reflexivity.
  - reflexivity.
Defined.

Example header_only_file_counts :
  (Bucket.run [Bucket.none_key]).1
  = Ok (mkResponse 200 "Processed 1 files with 0 rows into DynamoDB").
Proof. vm_compute. reflexivity. Qed.

Lemma closing_flush_decides_witness :
  ∃ items,
    length items = length Scenario.lyft_rows ∧
    handle_record Scenario.decimal_beyond Scenario.int_of
      Bucket.json_loads Bucket.s3_rows Scenario.put_ok Bucket.flush_fails
      (0, 0)%nat (Bucket.record_of Scenario.lyft_key) empty_trace
    = if match Scenario.lyft_rows with
         | [] => false
         | _ :: _ => Bucket.flush_fails (submitted empty_trace ++ items)
         end
      then
        (Ok (0, 0)%nat,
         mkTrace (printed empty_trace
                  ++ [ErrorInsertingRows (JStr Scenario.lyft_key) ClientError])
           (fetched empty_trace ++ [("market", Scenario.lyft_key)])
           (submitted empty_trace ++ items))
      else
        (Ok (1, 0 + length Scenario.lyft_rows)%nat,
         mkTrace (printed empty_trace
                  ++ [ProcessedFile (JStr Scenario.lyft_key) (length Scenario.lyft_rows)])
           (fetched empty_trace ++ [("market", Scenario.lyft_key)])
           (submitted empty_trace ++ items)).
Proof.
  apply (closing_flush_decides Scenario.decimal_beyond Scenario.int_of
           Bucket.json_loads Bucket.s3_rows
           Scenario.put_ok Bucket.flush_fails (Bucket.record_of Scenario.lyft_key)
           "market" Scenario.lyft_key "LYFT" "2025-11-17_15-26-55").
  - done.
  - apply names_bucket_object. by repeat constructor.
  - reflexivity.
  - reflexivity.
  - exact lyft_rows_all_build.
Defined.

(** A file with a header and no rows is counted even by a table whose every
    flush would fail: nothing was buffered. *)
Example header_only_file_needs_no_flush :
  handle_record Scenario.decimal_beyond Scenario.int_of
    Bucket.json_loads Bucket.s3_rows Scenario.put_ok (λ _, true)
    (0, 0)%nat (Bucket.record_of Bucket.none_key) empty_trace
  = (Ok (1, 0)%nat,
     mkTrace [ProcessedFile (JStr Bucket.none_key) 0] [("market", Bucket.none_key)] []).
Proof. vm_compute. reflexivity. Qed.

Lemma key_without_slash_is_skipped_witness :
  Bucket.run_record (3, 9)%nat Bucket.flat_key empty_trace
  = (Ok (3, 9)%nat,
     mkTrace (printed empty_trace
              ++ [ErrorExtractingKey (JStr Bucket.flat_key)
                    (ValueError ("Invalid S3 key format: " +:+ Bucket.flat_key))])
       (fetched empty_trace) (submitted empty_trace)).
Proof.
  apply (key_without_slash_is_skipped Scenario.decimal_beyond Scenario.int_of Bucket.json_loads Bucket.s3_rows
           Scenario.put_ok Scenario.flush_ok (Bucket.record_of Bucket.flat_key)
           "market" Bucket.flat_key (3, 9)%nat empty_trace []).
  - apply names_bucket_object. by repeat constructor.
  - reflexivity.
Defined.

Lemma unreadable_object_is_skipped_witness :
  Bucket.run_record (3, 9)%nat Bucket.gone_key empty_trace
  = (Ok (3, 9)%nat,
     mkTrace (printed empty_trace ++ [ErrorReadingCsv (JStr Bucket.gone_key) ClientError])
       (fetched empty_trace ++ [("market", Bucket.gone_key)])
       (submitted empty_trace)).
Proof.
  apply (unreadable_object_is_skipped Scenario.decimal_beyond Scenario.int_of Bucket.json_loads Bucket.s3_rows
           Scenario.put_ok Scenario.flush_ok (Bucket.record_of Bucket.gone_key)
           "market" Bucket.gone_key "GONE" "2025-11-17_15-26-55" (3, 9)%nat empty_trace []).
  - apply names_bucket_object. by repeat constructor.
  - reflexivity.
  - reflexivity.
Defined.

Lemma summary_never_over_reports_witness :
  ∃ files rows,
    mkResponse 200 "Processed 1 files with 3 rows into DynamoDB"
    = mkResponse 200 (summary (files, rows)) ∧
    (files <= length (Bucket.record_of <$> [Scenario.uber_key; Scenario.lyft_key]))%nat ∧
    (length (fetched empty_trace) + files
     <= length (fetched (Bucket.run [Scenario.uber_key; Scenario.lyft_key]).2))%nat ∧
    (length (submitted empty_trace) + rows
     <= length (submitted (Bucket.run [Scenario.uber_key; Scenario.lyft_key]).2))%nat.
Proof.
  apply (summary_never_over_reports Scenario.decimal_beyond Scenario.int_of Bucket.json_loads Bucket.s3_rows
           Scenario.put_ok Scenario.flush_ok
           (Scenario.event (Bucket.body_of <$> [Scenario.uber_key; Scenario.lyft_key]))
           JNull
           (Bucket.record_of <$> [Scenario.uber_key; Scenario.lyft_key])
           (mkResponse 200 "Processed 1 files with 3 rows into DynamoDB")
           empty_trace (Bucket.run [Scenario.uber_key; Scenario.lyft_key]).2).
  - vm_compute; reflexivity.
  - unfold Bucket.run.
    destruct (lambda_handler _ _ _ _ _ _ _ _ _) as [o t'] eqn:Hrun.
    vm_compute in Hrun. by injection Hrun as <- <-.
Defined.

Example summary_under_reports :
  (Bucket.run [Scenario.uber_key; Scenario.lyft_key]).1
  = Ok (mkResponse 200 "Processed 1 files with 3 rows into DynamoDB")
  ∧ length (submitted (Bucket.run [Scenario.uber_key; Scenario.lyft_key]).2) = 4%nat.
Proof. split; vm_compute; reflexivity. Qed.

Lemma one_log_line_per_sub_message_witness :
  length (printed (Bucket.run [Scenario.uber_key; Bucket.flat_key; Scenario.lyft_key]).2)
  = (length (printed empty_trace)
     + length (Bucket.record_of <$> [Scenario.uber_key; Bucket.flat_key; Scenario.lyft_key]))%nat.
Proof.
  apply (one_log_line_per_sub_message Scenario.decimal_beyond Scenario.int_of Bucket.json_loads Bucket.s3_rows
           Scenario.put_ok Scenario.flush_ok
           (Scenario.event
              (Bucket.body_of <$> [Scenario.uber_key; Bucket.flat_key; Scenario.lyft_key]))
           JNull
           (Bucket.record_of <$> [Scenario.uber_key; Bucket.flat_key; Scenario.lyft_key])
           (mkResponse 200 "Processed 1 files with 3 rows into DynamoDB")
           empty_trace
           (Bucket.run [Scenario.uber_key; Bucket.flat_key; Scenario.lyft_key]).2).
  - vm_compute; reflexivity.
  - unfold Bucket.run.
    destruct (lambda_handler _ _ _ _ _ _ _ _ _) as [o t'] eqn:Hrun.
    vm_compute in Hrun. by injection Hrun as <- <-.
Defined.

Lemma redelivery_is_processed_again_witness :
  ∃ items,
    length items = length Scenario.lyft_rows ∧
    handle_records Scenario.decimal_beyond Scenario.int_of Bucket.json_loads Bucket.s3_rows Scenario.put_ok Scenario.flush_ok
      (0, 0)%nat [Bucket.record_of Scenario.lyft_key; Bucket.record_of Scenario.lyft_key]
      empty_trace
    = (Ok (2, 0 + length Scenario.lyft_rows + length Scenario.lyft_rows)%nat,
       mkTrace (printed empty_trace
                ++ [ProcessedFile (JStr Scenario.lyft_key) (length Scenario.lyft_rows);
                    ProcessedFile (JStr Scenario.lyft_key) (length Scenario.lyft_rows)])
         (fetched empty_trace
          ++ [("market", Scenario.lyft_key); ("market", Scenario.lyft_key)])
         (submitted empty_trace ++ items ++ items)).
Proof.
  apply (redelivery_is_processed_again Scenario.decimal_beyond Scenario.int_of Bucket.json_loads Bucket.s3_rows
           Scenario.put_ok Scenario.flush_ok
           (Bucket.record_of Scenario.lyft_key) (Bucket.record_of Scenario.lyft_key)
           "market" Scenario.lyft_key "LYFT" "2025-11-17_15-26-55").
  - exact accepting_table.
  - apply names_bucket_object. by repeat constructor.
  - apply names_bucket_object. by repeat constructor.
  - reflexivity.
  - reflexivity.
  - exact lyft_rows_all_build.
Defined.

Lemma records_that_is_no_list_witness :
  lambda_handler Scenario.decimal_beyond Scenario.int_of
    Scenario.json_loads Scenario.s3_rows Scenario.put_ok Scenario.flush_ok
    {[ "Records" := JStr "ab" ]} JNull empty_trace
  = (Ok (mkResponse 200 "Processed 0 files with 0 rows into DynamoDB"),
     mkTrace (printed empty_trace
              ++ replicate (length (code_points "ab")) (ErrorParsingRecord TypeError))
       (fetched empty_trace) (submitted empty_trace)).
Proof.
  assert (({[ "Records" := JStr "ab" ]} : gmap string json) !! "Records"
          = Some (JStr "ab")) as Hrec by (vm_compute; reflexivity).
  exact (proj2 (records_that_is_no_list Scenario.decimal_beyond Scenario.int_of
                  Scenario.json_loads Scenario.s3_rows
                  Scenario.put_ok Scenario.flush_ok {[ "Records" := JStr "ab" ]} JNull
                  (JStr "ab") empty_trace Hrec) "ab" eq_refl).
Defined.

(** A character outside ASCII is one character, whatever the number of bytes
    of its encoding. *)
Example one_parse_error_per_character :
  let euro := String "226" (String "130" (String "172" EmptyString)) in
  code_points ("a" +:+ euro +:+ "b") = ["a"; euro; "b"].
Proof. reflexivity. Qed.

Lemma plain_price_is_stored_exactly_witness :
  safe_decimal Scenario.decimal_beyond (Some ("12" +:+ "." +:+ "50"))
  = Ok (Finite false 1250 (-2))
  ∧ safe_decimal Scenario.decimal_beyond (Some "12") = Ok (Finite false 12 0).
Proof. by apply (plain_price_is_stored_exactly Scenario.decimal_beyond "12" "50"). Defined.

Lemma safe_decimal_total_witness :
  safe_decimal Scenario.decimal_beyond (Some "-0.50") = Ok (Finite true 50 (-2))
  ∧ safe_decimal Scenario.decimal_beyond (Some "-0") = Ok (Finite true 0 0).
Proof.
  by apply (proj1 (proj2 (safe_decimal_total Scenario.decimal_beyond (Some "12.5")))
              true "0" "50").
Defined.

(** Text that is no number, a missing cell among them, is stored as zero. *)
Example no_number_is_zero (Decimal_beyond : string → option Decimal) :
  safe_decimal Decimal_beyond None = Ok Decimal_zero
  ∧ safe_decimal Decimal_beyond (Some "n/a") = Ok Decimal_zero
  ∧ safe_decimal Decimal_beyond (Some "1,5") = Ok Decimal_zero
  ∧ safe_decimal Decimal_beyond (Some " 7.10 ") = Ok (Finite false 710 (-2)).
Proof. by repeat split. Qed.

Lemma submitted_items_are_well_keyed_witness :
  ∃ items,
    submitted (Bucket.run [Scenario.uber_key; Scenario.lyft_key]).2
    = submitted empty_trace ++ items ∧
    Forall well_keyed items.
Proof.
  exact (submitted_items_are_well_keyed Scenario.decimal_beyond Scenario.int_of Bucket.json_loads Bucket.s3_rows
           Scenario.put_ok Scenario.flush_ok
           (Scenario.event (Bucket.body_of <$> [Scenario.uber_key; Scenario.lyft_key]))
           JNull empty_trace).
Defined.

Lemma objects_are_fetched_in_batch_order_witness :
  ∃ totals' t',
    handle_records Scenario.decimal_beyond Scenario.int_of Bucket.json_loads Bucket.s3_rows Scenario.put_ok Scenario.flush_ok
      (0, 0)%nat
      [Bucket.record_of Bucket.gone_key; Bucket.record_of Scenario.uber_key;
       Bucket.record_of Scenario.lyft_key] empty_trace
    = (Ok totals', t') ∧
    fetched t' = fetched empty_trace
                 ++ [("market", Bucket.gone_key); ("market", Scenario.uber_key);
                     ("market", Scenario.lyft_key)].
Proof.
  apply (objects_are_fetched_in_batch_order Scenario.decimal_beyond Scenario.int_of Bucket.json_loads Bucket.s3_rows
           Scenario.put_ok Scenario.flush_ok).
  repeat constructor; simpl; try reflexivity;
    apply names_bucket_object; by repeat constructor.
Defined.
